(** * census-loader, [web/utils.py]: zoom tiers, tolerances, class breaks,
      range partitioning and settings

    A shallow embedding of the pure and the query-building parts of
    [web/utils.py].  Python values are modelled as follows.

    - [int] is [Z]; [str] is [string]; a [dict] keyed by strings is a
      [gmap string pyval]; a list is a [list].
    - A raised exception is the [Raise] case of [result]; [try]/[except] is a
      match on it.  [print] and the [logger] calls append to an explicit
      output, returned next to the value.
    - The database cursor is an oracle from the query text to what
      [execute]/[fetch...] give back (rows, or a raised error).
    - Real-valued code is written once over the interface [PyNum] and read at
      two instances: exact rationals ([Q]) and IEEE binary64 ([float], the
      kernel's primitive floats, which is what a Python [float] is). *)

From Stdlib Require Import ZArith QArith Qround Qpower Qabs Floats.
From Stdlib Require Import String Ascii List Lia Bool DecimalString.
From stdpp Require Import base gmap strings.
Import ListNotations.

Local Open Scope string_scope.
Local Open Scope Z_scope.

(* ================================================================= *)
(** ** Exceptions and results *)

(** The exceptions the modelled code can meet.  [DatabaseError] stands for
    whatever [psycopg2] raises from [execute]. *)
Inductive pyexn : Type :=
| TypeError (msg : string)
| KeyError (key : string)
| IndexError (msg : string)
| ValueError (msg : string)
| ZeroDivisionError (msg : string)
| OverflowError (msg : string)
| DatabaseError (msg : string).

(** [str(ex)], as it appears in a formatted log line. *)
Definition exn_str (e : pyexn) : string :=
  match e with
  | TypeError m | IndexError m | ValueError m
  | ZeroDivisionError m | OverflowError m | DatabaseError m => m
  | KeyError k => "'" ++ k ++ "'"
  end.

Inductive result (A : Type) : Type :=
| Ok (a : A)
| Raise (e : pyexn).
Arguments Ok {A} a.
Arguments Raise {A} e.

Definition rbind {A B : Type} (m : result A) (k : A -> result B) : result B :=
  match m with
  | Ok a => k a
  | Raise e => Raise e
  end.

Notation "x <- m ;; k" := (rbind m (fun x => k))
  (at level 100, m at next level, right associativity).

Definition is_ok {A : Type} (m : result A) : bool :=
  match m with Ok _ => true | Raise _ => false end.

(* ================================================================= *)
(** ** The Python string operations the module uses *)

Module PyStr.

(** [pat in s]. *)
Fixpoint contains (pat s : string) : bool :=
  String.prefix pat s ||
  match s with
  | EmptyString => false
  | String _ s' => contains pat s'
  end.

(** [s.find(pat)], with [None] for [-1]. *)
Fixpoint find (pat s : string) : option nat :=
  if String.prefix pat s then Some 0%nat
  else match s with
       | EmptyString => None
       | String _ s' => option_map S (find pat s')
       end.

Fixpoint take (n : nat) (s : string) : string :=
  match n, s with
  | S k, String c s' => String c (take k s')
  | _, _ => EmptyString
  end.

Fixpoint drop (n : nat) (s : string) : string :=
  match n, s with
  | S k, String _ s' => drop k s'
  | _, _ => s
  end.

(** [s.replace(pat, new)] for a non-empty [pat] (every pattern in the module
    is a non-empty literal): occurrences are found left to right and do not
    overlap.  [skip] counts the characters of a matched occurrence that are
    still to be passed over. *)
Fixpoint replace_from (skip : nat) (pat new s : string) : string :=
  match s with
  | EmptyString => EmptyString
  | String c s' =>
      match skip with
      | S k => replace_from k pat new s'
      | O =>
          if String.prefix pat s
          then new ++ replace_from (String.length pat - 1) pat new s'
          else String c (replace_from 0 pat new s')
      end
  end.

Definition replace (pat new s : string) : string := replace_from 0 pat new s.

(** [s.split(sep)] for a one-character separator. *)
Fixpoint split_char (sep : ascii) (s : string) : list string :=
  match s with
  | EmptyString => [EmptyString]
  | String c s' =>
      if Ascii.eqb c sep then EmptyString :: split_char sep s'
      else match split_char sep s' with
           | h :: t => String c h :: t
           | [] => [String c EmptyString]
           end
  end.

(** [str(n)] for an [int]. *)
Definition str_of_Z (n : Z) : string := NilZero.string_of_int (Z.to_int n).

Definition digit_of (c : ascii) : option nat :=
  let n := nat_of_ascii c in
  if ((48 <=? n) && (n <=? 57))%nat then Some (n - 48)%nat else None.

(** [tmpl.format(a0, a1, ...)] for templates whose replacement fields are [{0}] to
    [{9}]; the arguments are already converted with [str].  A brace that
    does not open such a field is a [ValueError], an index past the
    arguments an [IndexError]. *)
Fixpoint format (tmpl : string) (args : list string) : result string :=
  match tmpl with
  | EmptyString => Ok EmptyString
  | String c t1 =>
      if Ascii.eqb c "{" then
        match t1 with
        | String d (String c2 t3) =>
            if Ascii.eqb c2 "}" then
              match digit_of d with
              | Some i =>
                  match nth_error args i with
                  | Some a => r <- format t3 args ;; Ok (a ++ r)
                  | None => Raise (IndexError "tuple index out of range")
                  end
              | None => Raise (ValueError "unsupported replacement field")
              end
            else Raise (ValueError "unsupported replacement field")
        | _ => Raise (ValueError "Single '{' encountered in format string")
        end
      else if Ascii.eqb c "}" then
        Raise (ValueError "Single '}' encountered in format string")
      else r <- format t1 args ;; Ok (String c r)
  end.

(** [cursor.mogrify(query, args)] where every argument is wrapped in [AsIs],
    so each [%s] is replaced by the argument's text unquoted, in order;
    [%%] is a literal percent sign. *)
Fixpoint mogrify (query : string) (args : list string) : result string :=
  match query with
  | EmptyString =>
      match args with
      | [] => Ok EmptyString
      | _ :: _ =>
          Raise (TypeError "not all arguments converted during string formatting")
      end
  | String c q1 =>
      if Ascii.eqb c "%" then
        match q1 with
        | String c2 q2 =>
            if Ascii.eqb c2 "s" then
              match args with
              | a :: args' => r <- mogrify q2 args' ;; Ok (a ++ r)
              | [] => Raise (IndexError "tuple index out of range")
              end
            else if Ascii.eqb c2 "%" then
              r <- mogrify q2 args ;; Ok (String "%" r)
            else Raise (ValueError "unsupported format character")
        | EmptyString => Raise (ValueError "incomplete format")
        end
      else r <- mogrify q1 args ;; Ok (String c r)
  end.

End PyStr.

(* ================================================================= *)
(** ** Zoom level to boundary resolution: [get_boundary] *)

Definition get_boundary (zoom_level : Z) : string * Z :=
  if zoom_level <? 7 then ("ste", 80)
  else if zoom_level <? 9 then ("sa4", 40)
  else if zoom_level <? 11 then ("sa3", 20)
  else if zoom_level <? 14 then ("sa2", 15)
  else if zoom_level <? 17 then ("sa1", 10)
  else ("mb", 3).

(* ================================================================= *)
(** ** Numbers: one interface, read exactly and in binary64 *)

(** The arithmetic the real-valued functions use.  [of_int] is [float(n)],
    [lit] a decimal literal of the source text, [ndiv] true division (it
    raises on a zero divisor), [math_pow2 k] is [math.pow(2.0, float(k))] and
    [math_sqr x] is [math.pow(x, 2.0)] (both raise [OverflowError] when the
    result is out of range). *)
Class PyNum (F : Type) : Type := {
  of_int : Z -> F;
  lit : Q -> F;
  nadd : F -> F -> F;
  nsub : F -> F -> F;
  nmul : F -> F -> F;
  ndiv : F -> F -> result F;
  math_pow2 : Z -> result F;
  math_sqr : F -> result F
}.

(** Exact arithmetic: nothing is rounded and nothing overflows. *)
#[export] Instance exact_num : PyNum Q := {|
  of_int := inject_Z;
  lit := fun q => q;
  nadd := Qplus;
  nsub := Qminus;
  nmul := Qmult;
  ndiv := fun x y =>
    if Qeq_bool y 0 then Raise (ZeroDivisionError "float division by zero")
    else Ok (x / y)%Q;
  math_pow2 := fun k => Ok (Qpower 2 k);
  math_sqr := fun x => Ok (x * x)%Q
|}.

(** [float(n)] in binary64, for [|n| < 2^63]. *)
Definition f64_of_Z (n : Z) : float :=
  if n <? 0 then (- PrimFloat.of_uint63 (Uint63.of_Z (- n)))%float
  else PrimFloat.of_uint63 (Uint63.of_Z n).

(** Binary64: every operation is the correctly rounded one ([math.pow(x, 2.0)]
    is taken to be the rounded square, and [math.pow(2.0, k)] the exact power
    of two).  A literal [n/d] with [n] and [d] below [2^53] is the quotient of
    two exact values, hence the double nearest to the decimal. *)
#[export] Instance f64_num : PyNum float := {|
  of_int := f64_of_Z;
  lit := fun q => (f64_of_Z (Qnum q) / f64_of_Z (Zpos (Qden q)))%float;
  nadd := PrimFloat.add;
  nsub := PrimFloat.sub;
  nmul := PrimFloat.mul;
  ndiv := fun x y =>
    if (y =? 0)%float then Raise (ZeroDivisionError "float division by zero")
    else Ok (x / y)%float;
  math_pow2 := fun k =>
    let r := Z.ldexp 1%float k in
    if PrimFloat.is_infinity r then Raise (OverflowError "math range error")
    else Ok r;
  math_sqr := fun x =>
    let r := (x * x)%float in
    if PrimFloat.is_infinity r && negb (PrimFloat.is_infinity x)
    then Raise (OverflowError "math range error")
    else Ok r
|}.

(* ================================================================= *)
(** ** Simplification tolerance: [get_tolerance] *)

Definition get_tolerance {F : Type} `{PyNum F} (zoom_level : Z) : result F :=
  (* pixels squared factor *)
  let tolerance_square_pixels := of_int 7 in
  (* default Google/Bing map tile scales *)
  p <- math_pow2 (zoom_level + 1) ;;
  metres_per_pixel <- ndiv (lit 156543.03390625%Q) p ;;
  (* the tolerance (metres) for vector simplification *)
  square_metres_per_pixel <- math_sqr metres_per_pixel ;;
  Ok (nmul square_metres_per_pixel tolerance_square_pixels).

(* ================================================================= *)
(** ** Coordinate precision: [get_decimal_places] *)











(* ================================================================= *)
(** ** Output and control flow: a small output-and-error monad *)

(** What the code writes: [print] lines and [logger] records. *)
Inductive out : Type :=
| Printed (line : string)
| LogInfo (msg : string)
| LogWarning (msg : string)
| LogFatal (msg : string).

(** A computation threads the output written so far and ends in a value or
    in a raised exception; what was written before a raise stays written. *)
Definition M (A : Type) : Type := list out -> list out * result A.

Definition ret {A : Type} (a : A) : M A := fun o => (o, Ok a).

Definition lift {A : Type} (r : result A) : M A := fun o => (o, r).

Definition emit (x : out) : M unit := fun o => ((o ++ [x])%list, Ok tt).

Definition mbind {A B : Type} (m : M A) (k : A -> M B) : M B :=
  fun o =>
    match m o with
    | (o', Ok a) => k a o'
    | (o', Raise e) => (o', Raise e)
    end.

Notation "x <~ m ;; k" := (mbind m (fun x => k))
  (at level 100, m at next level, right associativity).

(** [try: body except Exception as ex: handler]. *)
Definition try_except {A : Type} (body : M A) (handler : pyexn -> M A) : M A :=
  fun o =>
    match body o with
    | (o', Ok a) => (o', Ok a)
    | (o', Raise ex) => handler ex o'
    end.

(** A run from an empty output. *)
Definition run {A : Type} (m : M A) : list out * result A := m [].

(* ================================================================= *)
(** ** The settings dictionary *)

(** The values [get_settings] stores: ints, strings, a list of strings
    (the states) and lists of string-to-string dictionaries (the metadata and
    boundary tables, kept in insertion order). *)
Inductive pyval : Type :=
| VNone
| VInt (n : Z)
| VStr (s : string)
| VStrList (l : list string)
| VDictList (l : list (list (string * string))).

(** [settings[key]] read where the code needs a string.  A missing key is a
    [KeyError]. *)
Definition lookup_str (key : string) (settings : gmap string pyval) : result string :=
  match settings !! key with
  | Some (VStr s) => Ok s
  | Some (VInt n) => Ok (PyStr.str_of_Z n)
  | Some VNone => Ok "None"
  | Some _ => Raise (TypeError "a list where a name is expected")
  | None => Raise (KeyError key)
  end.

(** [float(settings[key])] for an integer setting, kept exact. *)
Definition lookup_int (key : string) (settings : gmap string pyval) : result Z :=
  match settings !! key with
  | Some (VInt n) => Ok n
  | Some _ => Raise (TypeError "float() argument must be a string or a number")
  | None => Raise (KeyError key)
  end.

(* ================================================================= *)
(** ** Class breaks: K-means, equal interval, equal count *)

(** A fetched row of the K-means and equal-count queries: the code reads its
    [val] column only. *)
Record val_row (V : Type) : Type := { row_val : V }.
Arguments row_val {V} _.

(** The row of the equal-interval query; a column is [None] when the
    aggregate ran over no rows. *)
Record min_max_row (V : Type) : Type := { row_min : option V; row_max : option V }.
Arguments row_min {V} _.
Arguments row_max {V} _.

(** [str(float(n))] for an [int] [n] with [|n| < 10^16]. *)
Definition str_of_float_of_Z (n : Z) : string := PyStr.str_of_Z n ++ ".0".

(** ["{0} - {1} Failed: {2}".format(data_table, stat_field, ex)], printed. *)
Definition print_failed (data_table stat_field : string) (ex : pyexn) : M unit :=
  line <~ lift (PyStr.format "{0} - {1} Failed: {2}"
                  [data_table; stat_field; exn_str ex]) ;;
  emit (Printed line).

(** [for row in rows: output_list.append(row["val"])]. *)
Definition collect_vals {V : Type} (rows : list (val_row V)) : list V :=
  fold_left (fun output_list row => (output_list ++ [row_val row])%list) rows [].

(** The query templates of [kmeans], for the [values] and the [percent] map
    type. *)
Definition kmeans_values_sql : string :=
  "WITH sub AS (" ++
  "WITH points AS (" ++
  "SELECT %s as val, ST_MakePoint(%s, 0) AS pnt " ++
  "FROM %s AS tab " ++
  "INNER JOIN %s AS bdy ON tab.{0} = bdy.id " ++
  "WHERE %s > 0.0 " ++
  "AND bdy.population > {1}" ++
  ") " ++
  "SELECT val, ST_ClusterKMeans(pnt, %s) OVER () AS cluster_id FROM points" ++
  ") " ++
  "SELECT MAX(val) AS val FROM sub GROUP BY cluster_id ORDER BY val".

Definition kmeans_percent_sql : string :=
  "WITH sub AS (" ++
  "WITH points AS (" ++
  "SELECT %s as val, ST_MakePoint(%s, 0) AS pnt " ++
  "FROM %s AS tab " ++
  "INNER JOIN %s AS bdy ON tab.{0} = bdy.id " ++
  "WHERE %s > 0.0 AND %s < 100.0 " ++
  "AND bdy.population > {1}" ++
  ") " ++
  "SELECT val, ST_ClusterKMeans(pnt, %s) OVER () AS cluster_id FROM points" ++
  ") " ++
  "SELECT MAX(val) AS val FROM sub GROUP BY cluster_id ORDER BY val".

Definition kmeans_sql_string (data_table boundary_table stat_field : string)
    (num_classes min_val : Z) (map_type : string)
    (settings : gmap string pyval) : result string :=
  if String.eqb map_type "values" then
    region_id_field <- lookup_str "region_id_field" settings ;;
    sql <- PyStr.format kmeans_values_sql [region_id_field; str_of_float_of_Z min_val] ;;
    PyStr.mogrify sql [stat_field; stat_field; data_table;
                       boundary_table; stat_field; PyStr.str_of_Z num_classes]
  else (* map_type == "percent" *)
    region_id_field <- lookup_str "region_id_field" settings ;;
    sql <- PyStr.format kmeans_percent_sql [region_id_field; str_of_float_of_Z min_val] ;;
    PyStr.mogrify sql [stat_field; stat_field; data_table;
                       boundary_table; stat_field; stat_field;
                       PyStr.str_of_Z num_classes].

(** [pg_cur] gives, for the text of a query, what [execute] followed by
    [fetchall] produces. *)
Definition get_kmeans_bins {V : Type} (data_table boundary_table stat_field : string)
    (num_classes min_val : Z) (map_type : string)
    (pg_cur : string -> result (list (val_row V)))
    (settings : gmap string pyval) : M (list V) :=
  try_except
    (sql_string <~ lift (kmeans_sql_string data_table boundary_table stat_field
                           num_classes min_val map_type settings) ;;
     rows <~ lift (pg_cur sql_string) ;;
     ret (collect_vals rows))
    (fun ex =>
       _ <~ print_failed data_table stat_field ex ;;
       ret []).

(** The query templates of [equal_interval], for the [values] and the [percent] map
    type. *)
Definition equal_interval_values_sql : string :=
  "SELECT MIN(%s) AS min, MAX(%s) AS max FROM %s AS tab " ++
  "INNER JOIN %s AS bdy ON tab.{0} = bdy.id " ++
  "WHERE %s > 0 " ++
  "AND bdy.population > 5".

Definition equal_interval_percent_sql : string :=
  "SELECT MIN(%s) AS min, MAX(%s) AS max FROM %s AS tab " ++
  "INNER JOIN %s AS bdy ON tab.{0} = bdy.id " ++
  "WHERE %s > 0 AND %s < 100.0 " ++
  "AND bdy.population > 5".

Definition equal_interval_sql_string (data_table boundary_table stat_field : string)
    (map_type : string) (settings : gmap string pyval) : result string :=
  if String.eqb map_type "values" then
    region_id_field <- lookup_str "region_id_field" settings ;;
    sql <- PyStr.format equal_interval_values_sql [region_id_field] ;;
    PyStr.mogrify sql [stat_field; stat_field; data_table;
                       boundary_table; stat_field]
  else (* map_type == "percent" *)
    region_id_field <- lookup_str "region_id_field" settings ;;
    sql <- PyStr.format equal_interval_percent_sql [region_id_field] ;;
    PyStr.mogrify sql [stat_field; stat_field; data_table;
                       boundary_table; stat_field; stat_field].

(** [max_val - min_val] on fetched columns: [None] has no subtraction. *)
Definition py_sub {F : Type} `{PyNum F} (a b : option F) : result F :=
  match a, b with
  | Some x, Some y => Ok (nsub x y)
  | None, None =>
      Raise (TypeError "unsupported operand type(s) for -: 'NoneType' and 'NoneType'")
  | _, _ => Raise (TypeError "unsupported operand type(s) for -")
  end.

(** [for i in range(0, num_classes): output_list.append(curr_val);
    curr_val += delta], with [n] iterations left. *)
Fixpoint interval_loop {F : Type} `{PyNum F} (n : nat) (output_list : list F)
    (curr_val delta : F) : list F :=
  match n with
  | O => output_list
  | S k => interval_loop k (output_list ++ [curr_val])%list (nadd curr_val delta) delta
  end.

(** The part of [get_equal_interval_bins] after the guarded query. *)
Definition equal_interval_breaks {F : Type} `{PyNum F} (row : min_max_row F)
    (num_classes : Z) : result (list F) :=
  let output_list := [] in
  let min_val := row_min row in
  let max_val := row_max row in
  diff <- py_sub max_val min_val ;;
  delta <- ndiv diff (of_int num_classes) ;;
  match min_val with
  | Some curr_val =>
      Ok (interval_loop (Z.to_nat num_classes) output_list curr_val delta)
  | None => Raise (TypeError "unsupported operand type(s) for -")
  end.

Definition get_equal_interval_bins {F : Type} `{PyNum F}
    (data_table boundary_table stat_field : string)
    (num_classes : Z) (map_type : string)
    (pg_cur : string -> result (min_max_row F))
    (settings : gmap string pyval) : M (list F) :=
  guarded <~
    try_except
      (sql_string <~ lift (equal_interval_sql_string data_table boundary_table
                             stat_field map_type settings) ;;
       row <~ lift (pg_cur sql_string) ;;
       ret (Some row))
      (fun ex =>
         _ <~ print_failed data_table stat_field ex ;;
         ret None) ;;
  match guarded with
  | None => ret []                       (* the handler's [return list()] *)
  | Some row => lift (equal_interval_breaks row num_classes)
  end.

(** The query templates of [equal_count], for the [values] and the [percent] map
    type. *)
Definition equal_count_values_sql : string :=
  "WITH classes AS (" ++
  "SELECT %s as val, ntile(%s) OVER (ORDER BY %s) AS class_id " ++
  "FROM %s AS tab " ++
  "INNER JOIN %s AS bdy ON tab.{0} = bdy.id " ++
  "WHERE %s > 0.0 " ++
  "AND bdy.population > 5.0" ++
  ") " ++
  "SELECT MAX(val) AS val, class_id FROM classes GROUP BY class_id ORDER BY class_id".

Definition equal_count_percent_sql : string :=
  "WITH classes AS (" ++
  "SELECT %s as val, ntile(7) OVER (ORDER BY %s) AS class_id " ++
  "FROM %s AS tab " ++
  "INNER JOIN %s AS bdy ON tab.{0} = bdy.id " ++
  "WHERE %s > 0.0 AND %s < 100.0 " ++
  "AND bdy.population > 5.0" ++
  ") " ++
  "SELECT MAX(val) AS val, class_id FROM classes GROUP BY class_id ORDER BY class_id".

Definition equal_count_sql_string (data_table boundary_table stat_field : string)
    (num_classes : Z) (map_type : string)
    (settings : gmap string pyval) : result string :=
  if String.eqb map_type "values" then
    region_id_field <- lookup_str "region_id_field" settings ;;
    sql <- PyStr.format equal_count_values_sql [region_id_field] ;;
    PyStr.mogrify sql [stat_field; PyStr.str_of_Z num_classes; stat_field;
                       data_table; boundary_table; stat_field]
  else (* map_type == "percent" *)
    region_id_field <- lookup_str "region_id_field" settings ;;
    sql <- PyStr.format equal_count_percent_sql [region_id_field] ;;
    PyStr.mogrify sql [stat_field; stat_field; data_table;
                       boundary_table; stat_field; stat_field].

Definition get_equal_count_bins {V : Type} (data_table boundary_table stat_field : string)
    (num_classes : Z) (map_type : string)
    (pg_cur : string -> result (list (val_row V)))
    (settings : gmap string pyval) : M (list V) :=
  try_except
    (sql_string <~ lift (equal_count_sql_string data_table boundary_table stat_field
                           num_classes map_type settings) ;;
     _ <~ emit (Printed sql_string) ;;
     rows <~ lift (pg_cur sql_string) ;;
     ret (collect_vals rows))
    (fun ex =>
       _ <~ print_failed data_table stat_field ex ;;
       ret []).

(* ================================================================= *)
(** ** Range partitioning: [split_sql_into_list] *)

Definition tab : string := String "009"%char EmptyString.
Definition newline : string := String "010"%char EmptyString.

(** [int(x)] on a fetched column: [None] is a [TypeError]. *)
Definition py_int (x : option Z) : result Z :=
  match x with
  | Some n => Ok n
  | None =>
      Raise (TypeError "int() argument must be a string, a bytes-like object or a real number, not 'NoneType'")
  end.

(** [float(a) / float(b)] on integers, kept exact (binary64 agrees with it
    on the comparison and the floor below for keys under [2^53]). *)
Definition float_div (a b : Z) : result Q := ndiv (of_int a : Q) (of_int b).

(** [" WHERE {0}.{3} > {1} AND {0}.{3} <= {2}".format(table_alias,
    start_pkey, end_pkey, table_gid)]. *)
Definition where_clause_of (table_alias : string) (start_pkey end_pkey : Z)
    (table_gid : string) : result string :=
  PyStr.format " WHERE {0}.{3} > {1} AND {0}.{3} <= {2}"
    [table_alias; PyStr.str_of_Z start_pkey; PyStr.str_of_Z end_pkey; table_gid].

(** The rewriting of the template by one partition's predicate. *)
Definition inject_where (the_sql where_clause : string) : M string :=
  if PyStr.contains "WHERE " the_sql then
    ret (PyStr.replace " WHERE " (where_clause ++ " AND ") the_sql)
  else if PyStr.contains "GROUP BY " the_sql then
    ret (PyStr.replace "GROUP BY " (where_clause ++ " GROUP BY ") the_sql)
  else if PyStr.contains "ORDER BY " the_sql then
    ret (PyStr.replace "ORDER BY " (where_clause ++ " ORDER BY ") the_sql)
  else if PyStr.contains ";" the_sql then
    ret (PyStr.replace ";" (where_clause ++ ";") the_sql)
  else
    let mp_sql := the_sql ++ where_clause in
    _ <~ emit (LogWarning (tab ++ tab ++
                 "- NOTICE: no ; found at the end of the SQL statement")) ;;
    ret mp_sql.

(** [for i in range(0, processes): ...], with [n] iterations left; the
    statements are appended to [sql_list] in order. *)
Fixpoint split_loop (n : nat) (the_sql table_alias table_gid : string)
    (rows_per_request start_pkey : Z) (sql_list : list string) : M (list string) :=
  match n with
  | O => ret sql_list
  | S k =>
      let end_pkey := start_pkey + rows_per_request in
      where_clause <~ lift (where_clause_of table_alias start_pkey end_pkey table_gid) ;;
      mp_sql <~ inject_where the_sql where_clause ;;
      split_loop k the_sql table_alias table_gid rows_per_request end_pkey
        (sql_list ++ [mp_sql])%list
  end.

(** The key ranges [(start_pkey, end_pkey)] the loop goes through. *)
Fixpoint key_ranges (n : nat) (rows_per_request start_pkey : Z) : list (Z * Z) :=
  match n with
  | O => []
  | S k =>
      let end_pkey := start_pkey + rows_per_request in
      (start_pkey, end_pkey) :: key_ranges k rows_per_request end_pkey
  end.

(** Rows per request and number of processes, as computed before the loop.
    The flag tells whether the low-row-count adjustment was made. *)
Definition partition_plan (diff max_concurrent_processes : Z) : result (Z * Z * bool) :=
  (* Number of records in each query *)
  q <- float_div diff max_concurrent_processes ;;
  let rows_per_request := Qfloor q + 1 in
  q' <- float_div diff max_concurrent_processes ;;
  if negb (Qle_bool 10 q') then
    let rows_per_request := 10 in
    let processes := Qfloor (inject_Z diff / 10) + 1 in
    Ok (rows_per_request, processes, true)
  else
    let processes := max_concurrent_processes in
    Ok (rows_per_request, processes, false).

(** [pg_cur] gives, for the text of the MIN/MAX query, the fetched row;
    a raise stands for [execute] failing, which happens before the [try]. *)
Definition split_sql_into_list (pg_cur : string -> result (option Z * option Z))
    (the_sql table_schema table_name table_alias table_gid : string)
    (settings : gmap string pyval) : M (option (list string)) :=
  (* get min max gid values from the table to split *)
  min_max_sql <~ lift (PyStr.format
                   "SELECT MIN({2}) AS min, MAX({2}) AS max FROM {0}.{1}"
                   [table_schema; table_name; table_gid]) ;;
  result <~ lift (pg_cur min_max_sql) ;;
  try_except
    (min_pkey <~ lift (py_int (fst result)) ;;
     max_pkey <~ lift (py_int (snd result)) ;;
     let diff := max_pkey - min_pkey in
     mcp <~ lift (lookup_int "max_concurrent_processes" settings) ;;
     plan <~ lift (partition_plan diff mcp) ;;
     let '(rows_per_request, processes, adjusted) := plan in
     _ <~ (if adjusted then
             msg <~ lift (PyStr.format
                      (tab ++ tab ++ "- running {0} processes (adjusted due to low row count in table to split)")
                      [PyStr.str_of_Z processes]) ;;
             emit (LogInfo msg)
           else ret tt) ;;
     (* create list of sql statements to run with multiprocessing *)
     let sql_list := [] in
     let start_pkey := min_pkey - 1 in
     sql_list <~ split_loop (Z.to_nat processes) the_sql table_alias table_gid
                   rows_per_request start_pkey sql_list ;;
     ret (Some sql_list))
    (fun ex =>
       msg <~ lift (PyStr.format
                ("Looks like the table in this query is empty: {0}" ++ newline ++ "{1}")
                [min_max_sql; exn_str ex]) ;;
       _ <~ emit (LogFatal msg) ;;
       ret None).

(* ================================================================= *)
(** ** Settings: [get_settings] *)

(** The parsed command line ([argparse]'s namespace).  An option without a
    default is [None] when absent. *)
Record args : Type := {
  max_processes : Z;
  pghost : option string;
  pgport : option Z;
  pgdb : option string;
  pguser : option string;
  pgpassword : option string;
  census_year : string;
  data_schema : string;
  boundary_schema : string;
  web_schema : string;
  census_data_path : option string;
  census_bdys_path : option string
}.

(** [a or d] on an optional string: [None] and the empty string are false. *)
Definition str_or (a : option string) (d : string) : string :=
  match a with
  | Some s => if String.eqb s "" then d else s
  | None => d
  end.

(** [os.getenv(key, default)]. *)
Definition getenv (env : gmap string string) (key default : string) : string :=
  match env !! key with
  | Some v => v
  | None => default
  end.

Definition backslash : string := String "092"%char EmptyString.

Definition census_metadata_dicts : list (list (string * string)) :=
  [ [("table", "metadata_tables"); ("first_row", "table number")];
    [("table", "metadata_stats"); ("first_row", "sequential")] ].

(** [settings['bdy_table_dicts']] for the 2016 census. *)
Definition bdy_table_dicts_2016 : list (list (string * string)) :=
  [ [("boundary", "add"); ("id_field", "add_code16"); ("name_field", "add_name16"); ("area_field", "areasqkm16")];
    [("boundary", "ced"); ("id_field", "ced_code16"); ("name_field", "ced_name16"); ("area_field", "areasqkm16")];
    [("boundary", "gccsa"); ("id_field", "gcc_code16"); ("name_field", "gcc_name16"); ("area_field", "areasqkm16")];
    [("boundary", "iare"); ("id_field", "iar_code16"); ("name_field", "iar_name16"); ("area_field", "areasqkm16")];
    [("boundary", "iloc"); ("id_field", "ilo_code16"); ("name_field", "ilo_name16"); ("area_field", "areasqkm16")];
    [("boundary", "ireg"); ("id_field", "ire_code16"); ("name_field", "ire_name16"); ("area_field", "areasqkm16")];
    [("boundary", "lga"); ("id_field", "lga_code16"); ("name_field", "lga_name16"); ("area_field", "areasqkm16")];
    [("boundary", "mb"); ("id_field", "mb_code16"); ("name_field", "'MB ' || mb_code16"); ("area_field", "areasqkm16")];
    [("boundary", "nrmr"); ("id_field", "nrm_code16"); ("name_field", "nrm_name16"); ("area_field", "areasqkm16")];
    [("boundary", "poa"); ("id_field", "poa_code16"); ("name_field", "'Postcode ' || poa_name16"); ("area_field", "areasqkm16")];
    [("boundary", "sa1"); ("id_field", "sa1_main16"); ("name_field", "'SA1 ' || sa1_main16"); ("area_field", "areasqkm16")];
    [("boundary", "sa2"); ("id_field", "sa2_main16"); ("name_field", "sa2_name16"); ("area_field", "areasqkm16")];
    [("boundary", "sa3"); ("id_field", "sa3_code16"); ("name_field", "sa3_name16"); ("area_field", "areasqkm16")];
    [("boundary", "sa4"); ("id_field", "sa4_code16"); ("name_field", "sa4_name16"); ("area_field", "areasqkm16")];
    [("boundary", "sed"); ("id_field", "sed_code16"); ("name_field", "sed_name16"); ("area_field", "areasqkm16")];
    [("boundary", "ssc"); ("id_field", "ssc_code16"); ("name_field", "ssc_name16"); ("area_field", "areasqkm16")];
    [("boundary", "ste"); ("id_field", "state_code16"); ("name_field", "state_name16"); ("area_field", "areasqkm16")];
    [("boundary", "tr"); ("id_field", "tr_code16"); ("name_field", "tr_name16"); ("area_field", "areasqkm16")] ].

(** [settings['bdy_table_dicts']] for the 2011 census. *)
Definition bdy_table_dicts_2011 : list (list (string * string)) :=
  [ [("boundary", "ced"); ("id_field", "ced_code"); ("name_field", "ced_name"); ("area_field", "area_sqkm")];
    [("boundary", "gccsa"); ("id_field", "gccsa_code"); ("name_field", "gccsa_name"); ("area_field", "area_sqkm")];
    [("boundary", "iare"); ("id_field", "iare_code"); ("name_field", "iare_name"); ("area_field", "area_sqkm")];
    [("boundary", "iloc"); ("id_field", "iloc_code"); ("name_field", "iloc_name"); ("area_field", "area_sqkm")];
    [("boundary", "ireg"); ("id_field", "ireg_code"); ("name_field", "ireg_name"); ("area_field", "area_sqkm")];
    [("boundary", "lga"); ("id_field", "lga_code"); ("name_field", "lga_name"); ("area_field", "area_sqkm")];
    [("boundary", "mb"); ("id_field", "mb_code11"); ("name_field", "'MB ' || mb_code11"); ("area_field", "albers_sqm / 1000000.0")];
    [("boundary", "poa"); ("id_field", "poa_code"); ("name_field", "'POA ' || poa_name"); ("area_field", "area_sqkm")];
    [("boundary", "ra"); ("id_field", "ra_code"); ("name_field", "ra_name"); ("area_field", "area_sqkm")];
    [("boundary", "sa1"); ("id_field", "sa1_7digit"); ("name_field", "'SA1 ' || sa1_7digit"); ("area_field", "area_sqkm")];
    [("boundary", "sa2"); ("id_field", "sa2_main"); ("name_field", "sa2_name"); ("area_field", "area_sqkm")];
    [("boundary", "sa3"); ("id_field", "sa3_code"); ("name_field", "sa3_name"); ("area_field", "area_sqkm")];
    [("boundary", "sa4"); ("id_field", "sa4_code"); ("name_field", "sa4_name"); ("area_field", "area_sqkm")];
    [("boundary", "sed"); ("id_field", "sed_code"); ("name_field", "sed_name"); ("area_field", "area_sqkm")];
    [("boundary", "sla"); ("id_field", "sla_main"); ("name_field", "sla_name"); ("area_field", "area_sqkm")];
    [("boundary", "sos"); ("id_field", "sos_code"); ("name_field", "sos_name"); ("area_field", "area_sqkm")];
    [("boundary", "sosr"); ("id_field", "sosr_code"); ("name_field", "sosr_name"); ("area_field", "area_sqkm")];
    [("boundary", "ssc"); ("id_field", "ssc_code"); ("name_field", "ssc_name"); ("area_field", "area_sqkm")];
    [("boundary", "ste"); ("id_field", "state_code"); ("name_field", "state_name"); ("area_field", "area_sqkm")];
    [("boundary", "sua"); ("id_field", "sua_code"); ("name_field", "sua_name"); ("area_field", "area_sqkm")];
    [("boundary", "ucl"); ("id_field", "ucl_code"); ("name_field", "ucl_name"); ("area_field", "area_sqkm")] ].

(** [env] is the process environment and [script_dir] the directory of the
    module's file ([os.path.dirname(os.path.realpath(__file__))]). *)
Definition get_settings (env : gmap string string) (script_dir : string)
    (a : args) : result (option (gmap string pyval)) :=
  let settings : gmap string pyval := ∅ in
  let census_data_path := str_or (census_data_path a) "" in
  let census_bdys_path := str_or (census_bdys_path a) "" in
  let settings := <["max_concurrent_processes" := VInt (max_processes a)]> settings in
  let settings := <["census_year" := VStr (census_year a)]> settings in
  let settings := <["states" := VStrList ["ACT"; "NSW"; "NT"; "OT"; "QLD"; "SA"; "TAS"; "VIC"; "WA"]]> settings in
  let settings := <["data_schema" := VStr (data_schema a)]> settings in
  let settings := <["boundary_schema" := VStr (boundary_schema a)]> settings in
  let settings := <["web_schema" := VStr (web_schema a)]> settings in
  let settings := <["data_directory" := VStr (PyStr.replace backslash "/" census_data_path)]> settings in
  let settings := <["boundaries_local_directory" := VStr (PyStr.replace backslash "/" census_bdys_path)]> settings in
  (* create postgres connect string *)
  let pg_host := str_or (pghost a) (getenv env "PGHOST" "localhost") in
  let pg_port :=
    match pgport a with
    | Some p => if p =? 0 then None else Some p
    | None => None
    end in
  let pg_port_val :=
    match pg_port with
    | Some p => VInt p
    | None => match env !! "PGPORT" with Some v => VStr v | None => VInt 5432 end
    end in
  let pg_port_str :=
    match pg_port_val with
    | VInt p => PyStr.str_of_Z p
    | VStr v => v
    | _ => ""
    end in
  let pg_db := str_or (pgdb a) (getenv env "POSTGRES_USER" "geo") in
  let pg_user := str_or (pguser a) (getenv env "POSTGRES_USER" "postgres") in
  let pg_password := str_or (pgpassword a) (getenv env "POSTGRES_PASSWORD" "password") in
  let settings := <["pg_host" := VStr pg_host]> settings in
  let settings := <["pg_port" := pg_port_val]> settings in
  let settings := <["pg_db" := VStr pg_db]> settings in
  let settings := <["pg_user" := VStr pg_user]> settings in
  let settings := <["pg_password" := VStr pg_password]> settings in
  pg_connect_string <-
    PyStr.format "dbname='{0}' host='{1}' port='{2}' user='{3}' password='{4}'"
      [pg_db; pg_host; pg_port_str; pg_user; pg_password] ;;
  let settings := <["pg_connect_string" := VStr pg_connect_string]> settings in
  (* set postgres script directory *)
  let settings := <["sql_dir" := VStr (script_dir ++ "/" ++ "postgres-scripts")]> settings in
  (* set file name and field name defaults based on census year *)
  if String.eqb (census_year a) "2016" then
    let settings := <["metadata_file_prefix" := VStr "Sample_Metadata_"]> settings in
    let settings := <["metadata_file_type" := VStr ".xls"]> settings in
    let settings := <["census_metadata_dicts" := VDictList census_metadata_dicts]> settings in
    let settings := <["data_file_prefix" := VStr "2016_Sample_"]> settings in
    let settings := <["data_file_type" := VStr ".csv"]> settings in
    let settings := <["table_name_part" := VInt 2]> settings in
    let settings := <["bdy_name_part" := VInt 3]> settings in
    let settings := <["region_id_field" := VStr "aus_code_2016"]> settings in
    let settings := <["bdy_table_dicts" := VDictList bdy_table_dicts_2016]> settings in
    Ok (Some settings)
  else if String.eqb (census_year a) "2011" then
    let settings := <["metadata_file_prefix" := VStr "Metadata_"]> settings in
    let settings := <["metadata_file_type" := VStr ".xlsx"]> settings in
    let settings := <["census_metadata_dicts" := VDictList census_metadata_dicts]> settings in
    let settings := <["data_file_prefix" := VStr "2011Census_"]> settings in
    let settings := <["data_file_type" := VStr ".csv"]> settings in
    let settings := <["table_name_part" := VInt 1]> settings in
    let settings := <["bdy_name_part" := VInt 3]> settings in
    let settings := <["region_id_field" := VStr "region_id"]> settings in
    let settings := <["bdy_table_dicts" := VDictList bdy_table_dicts_2011]> settings in
    Ok (Some settings)
  else
    Ok None.

(* ================================================================= *)
(** ** Vocabulary of the statements *)

(** The binary64 check behind the tolerance theorem, on a pair of zoom
    levels: both calls return and the finer zoom has the smaller value. *)
Definition f64_tolerance_decreases (z1 z2 : Z) : bool :=
  match get_tolerance (F := float) z1, get_tolerance (F := float) z2 with
  | Ok t1, Ok t2 => (t2 <? t1)%float
  | _, _ => false
  end.



(** The line the handlers print. *)
Definition failed_line (data_table stat_field : string) (ex : pyexn) : string :=
  data_table ++ " - " ++ stat_field ++ " Failed: " ++ exn_str ex.

(** How a statement of the list comes from a key range. *)
Definition statement_of_range (the_sql table_alias table_gid : string)
    (range : Z * Z) (mp_sql : string) : Prop :=
  exists (where_clause : string) (w : list out),
    where_clause_of table_alias (fst range) (snd range) table_gid = Ok where_clause /\
    inject_where the_sql where_clause [] = (w, Ok mp_sql).

(* ================================================================= *)
(** ** Inputs for the concrete runs *)


Definition settings_2016 : gmap string pyval :=
  {[ "region_id_field" := VStr "aus_code_2016" ]}.

(** A cursor whose [execute] fails. *)
Definition failing_cursor (_ : string) : result (list (val_row Q)) :=
  Raise (DatabaseError "relation does not exist").

(** A cursor over a table without matching rows. *)
Definition empty_cursor (_ : string) : result (min_max_row Q) :=
  Ok {| row_min := None; row_max := None |}.

(** A cursor over a table with keys 1 to 100. *)
Definition cursor_1_100 (_ : string) : result (option Z * option Z) :=
  Ok (Some 1, Some 100).

Definition settings_3_processes : gmap string pyval :=
  {[ "max_concurrent_processes" := VInt 3 ]}.

(** The command line with every option left at its default. *)
Definition default_args : args := {|
  max_processes := 3;
  pghost := None;
  pgport := None;
  pgdb := None;
  pguser := None;
  pgpassword := None;
  census_year := "2016";
  data_schema := "census_2016_data";
  boundary_schema := "census_2016_bdys";
  web_schema := "census_2016_web";
  census_data_path := None;
  census_bdys_path := None
|}.

(* ================================================================= *)
(** ** Further vocabulary: range partitioning *)

(** The text of the MIN/MAX query of [split_sql_into_list]. *)
Definition min_max_query (table_schema table_name table_gid : string) : string :=
  "SELECT MIN(" ++ table_gid ++ ") AS min, MAX(" ++ table_gid ++
  ") AS max FROM " ++ table_schema ++ "." ++ table_name.

(** The record the handler of [split_sql_into_list] logs. *)
Definition empty_table_record (min_max_sql : string) (ex : pyexn) : out :=
  LogFatal ("Looks like the table in this query is empty: " ++ min_max_sql ++
            newline ++ exn_str ex).

(** The record logged when the rows per request are forced to 10. *)
Definition adjusted_record (processes : Z) : out :=
  LogInfo (tab ++ tab ++ "- running " ++ PyStr.str_of_Z processes ++
           " processes (adjusted due to low row count in table to split)").

(** The warning logged for a template without keyword and terminator. *)
Definition no_terminator_record : out :=
  LogWarning (tab ++ tab ++ "- NOTICE: no ; found at the end of the SQL statement").

(* ================================================================= *)
(** ** The command line: [set_arguments] *)

(** The options given on the command line, as [argparse] hands them over
    (the two integer options already converted); an option that was not
    given is [None]. *)
Record cmdline : Type := {
  opt_max_processes : option Z;
  opt_pghost : option string;
  opt_pgport : option Z;
  opt_pgdb : option string;
  opt_pguser : option string;
  opt_pgpassword : option string;
  opt_census_year : option string;
  opt_data_schema : option string;
  opt_boundary_schema : option string;
  opt_web_schema : option string;
  opt_census_data_path : option string;
  opt_census_bdys_path : option string
}.

(** [parser.parse_args()]: an option that was given keeps its value, one
    that was not gets the default of its [add_argument] call ([None] where
    there is none).  The schema defaults are built from the local
    [census_year = '2016'], not from the [--census-year] option. *)
Definition set_arguments (given : cmdline) : args :=
  (* schema names for the census data & boundary tables *)
  let census_year := "2016" in
  {| max_processes := default 3 (opt_max_processes given);
     pghost := opt_pghost given;
     pgport := opt_pgport given;
     pgdb := opt_pgdb given;
     pguser := opt_pguser given;
     pgpassword := opt_pgpassword given;
     census_year := default census_year (opt_census_year given);
     data_schema :=
       default ("census_" ++ census_year ++ "_data") (opt_data_schema given);
     boundary_schema :=
       default ("census_" ++ census_year ++ "_bdys") (opt_boundary_schema given);
     web_schema :=
       default ("census_" ++ census_year ++ "_web") (opt_web_schema given);
     census_data_path := opt_census_data_path given;
     census_bdys_path := opt_census_bdys_path given |}.

(** A command line with no option. *)
Definition no_options : cmdline := {|
  opt_max_processes := None;
  opt_pghost := None;
  opt_pgport := None;
  opt_pgdb := None;
  opt_pguser := None;
  opt_pgpassword := None;
  opt_census_year := None;
  opt_data_schema := None;
  opt_boundary_schema := None;
  opt_web_schema := None;
  opt_census_data_path := None;
  opt_census_bdys_path := None
|}.

(* ================================================================= *)
(** ** More string operations *)

(** [c.isspace()] for a character below 256. *)
Definition is_py_space (c : ascii) : bool :=
  let n := nat_of_ascii c in
  ((9 <=? n) && (n <=? 13) || (28 <=? n) && (n <=? 32) ||
   (n =? 133) || (n =? 160))%nat.

(** [s.lstrip()]. *)
Fixpoint str_lstrip (s : string) : string :=
  match s with
  | EmptyString => EmptyString
  | String c rest => if is_py_space c then str_lstrip rest else s
  end.

(** [s.rstrip()]. *)
Fixpoint str_rstrip (s : string) : string :=
  match s with
  | EmptyString => EmptyString
  | String c rest =>
      match str_rstrip rest with
      | EmptyString => if is_py_space c then EmptyString else String c EmptyString
      | String c' rest' => String c (String c' rest')
      end
  end.

(** [c.lower()] for a character below 256. *)
Definition lower_char (c : ascii) : ascii :=
  let n := nat_of_ascii c in
  if ((65 <=? n) && (n <=? 90) ||
      (192 <=? n) && (n <=? 222) && negb (n =? 215))%nat
  then ascii_of_nat (n + 32) else c.

(** [s.lower()]. *)
Fixpoint str_lower (s : string) : string :=
  match s with
  | EmptyString => EmptyString
  | String c rest => String (lower_char c) (str_lower rest)
  end.

(** [sep.join(l)]. *)
Fixpoint str_join (sep : string) (l : list string) : string :=
  match l with
  | [] => EmptyString
  | [s] => s
  | s :: rest => s ++ sep ++ str_join sep rest
  end.

(** The characters of [s] that satisfy [keep], in order. *)
Fixpoint str_filter (keep : ascii -> bool) (s : string) : string :=
  match s with
  | EmptyString => EmptyString
  | String c rest =>
      if keep c then String c (str_filter keep rest) else str_filter keep rest
  end.

Definition space : string := " ".
Definition ctrl_z : string := String "026"%char EmptyString.
Definition dquote : string := String "034"%char EmptyString.

(* ================================================================= *)
(** ** Workers: sessions, files and commands, with a trace *)

(** What a worker does to the outside, in order. *)
Inductive event : Type :=
| Wrote (o : out)
| Connected (connect_string : string)
| Executed (sql : string)
| Copied (sql data : string)
| CursorClosed
| ConnectionClosed
| FileWritten (path content : string)
| Ran (cmd : string).

(** The outside: what each call gives back.  [execute] and [fetchall] are
    read by the text of the statement, as the cursor of the class-break
    functions is. *)
Record world : Type := {
  connect : string -> result unit;
  execute : string -> result unit;
  fetchall : string -> result (list string);
  copy_expert : string -> string -> result unit;
  read_file : string -> result string;
  write_file : string -> string -> result unit;
  subprocess_call : string -> result Z;
  popen_communicate : string -> result (string * string)
}.

(** A computation with a trace of events. *)
Definition W (A : Type) : Type := list event -> list event * result A.

Definition wret {A : Type} (a : A) : W A := fun t => (t, Ok a).

Definition wlift {A : Type} (r : result A) : W A := fun t => (t, r).

Definition wemit (e : event) : W unit := fun t => ((t ++ [e])%list, Ok tt).

Definition wbind {A B : Type} (m : W A) (k : A -> W B) : W B :=
  fun t =>
    match m t with
    | (t', Ok a) => k a t'
    | (t', Raise e) => (t', Raise e)
    end.

Notation "x <~~ m ;; k" := (wbind m (fun x => k))
  (at level 100, m at next level, right associativity).

Definition wtry {A : Type} (body : W A) (handler : pyexn -> W A) : W A :=
  fun t =>
    match body t with
    | (t', Ok a) => (t', Ok a)
    | (t', Raise ex) => handler ex t'
    end.

(** A call to the outside that leaves [e] in the trace when it succeeds. *)
Definition call {A : Type} (r : result A) (e : event) : W A :=
  a <~~ wlift r ;; _ <~~ wemit e ;; wret a.

(** [psycopg2.connect(...)], [autocommit] and [cursor()]. *)
Definition open_session (w : world) (settings : gmap string pyval) : W unit :=
  connect_string <~~ wlift (lookup_str "pg_connect_string" settings) ;;
  call (connect w connect_string) (Connected connect_string).

Definition do_execute (w : world) (sql : string) : W unit :=
  call (execute w sql) (Executed sql).

(** [pg_cur.close(); pg_conn.close()]. *)
Definition close_session : W unit :=
  _ <~~ wemit CursorClosed ;; wemit ConnectionClosed.

(** *** [run_sql_multiprocessing] *)

Definition run_sql_multiprocessing (w : world) (the_sql : string)
    (settings : gmap string pyval) : W string :=
  _ <~~ open_session w settings ;;
  result <~~ wtry
    (_ <~~ do_execute w the_sql ;;
     wret "SUCCESS")
    (fun ex => wlift (PyStr.format "SQL FAILED! : {0} : {1}" [the_sql; exn_str ex])) ;;
  _ <~~ close_session ;;
  wret result.

(** *** [run_command_line] *)

(** [subprocess_call] stands for opening the null device and
    [subprocess.call]: an exit status, or a raise. *)
Definition run_command_line (w : world) (cmd : string) : W string :=
  wtry
    (_ <~~ call (subprocess_call w cmd) (Ran cmd) ;;
     wret "SUCCESS")
    (fun ex => wlift (PyStr.format "COMMAND FAILED! : {0} : {1}" [cmd; exn_str ex])).

(** *** [run_csv_import_multiprocessing] *)

(** The work item of the CSV import: [file_dict]. *)
Record csv_job : Type := { job_path : string; job_table : string; job_boundary : string }.

(** [raw_string.lstrip().rstrip().replace(" ", "").replace("\x1A", "")]. *)
Definition clean_csv (raw_string : string) : string :=
  PyStr.replace ctrl_z "" (PyStr.replace space "" (str_rstrip (str_lstrip raw_string))).

(** [for field in fields: field_list.append(field[0].lower())]. *)
Definition collect_fields (fields : list string) : list string :=
  fold_left (fun field_list field => (field_list ++ [str_lower field])%list) fields [].

Definition run_csv_import_multiprocessing (w : world) (file_dict : csv_job)
    (settings : gmap string pyval) : W string :=
  _ <~~ open_session w settings ;;
  (* CREATE TABLE *)
  (* get the census fields to use in the create table statement *)
  data_schema <~~ wlift (lookup_str "data_schema" settings) ;;
  sql <~~ wlift (PyStr.format
            ("SELECT sequential_id || ' double precision' AS field " ++
             "FROM {0}.metadata_stats " ++
             "WHERE lower(table_number) LIKE '{1}%'")
            [data_schema; job_table file_dict]) ;;
  _ <~~ do_execute w sql ;;
  fields <~~ wlift (fetchall w sql) ;;
  let field_list := collect_fields fields in
  let fields_string := str_join "," field_list in
  (* create the table *)
  let table_name := job_boundary file_dict ++ "_" ++ job_table file_dict in
  data_schema <~~ wlift (lookup_str "data_schema" settings) ;;
  pg_user <~~ wlift (lookup_str "pg_user" settings) ;;
  region_id_field <~~ wlift (lookup_str "region_id_field" settings) ;;
  create_table_sql <~~ wlift (PyStr.format
            ("DROP TABLE IF EXISTS {0}.{1} CASCADE;" ++
             "CREATE TABLE {0}.{1} ({4} text, {2}) WITH (OIDS=FALSE);" ++
             "ALTER TABLE {0}.metadata_tables OWNER TO {3}")
            [data_schema; table_name; fields_string; pg_user; region_id_field]) ;;
  _ <~~ do_execute w create_table_sql ;;
  (* IMPORT CSV FILE *)
  failed <~~ wtry
    ((* read CSV into a string *)
     raw_string <~~ wlift (read_file w (job_path file_dict)) ;;
     (* clean whitespace and rogue non-ascii characters *)
     let clean_string := clean_csv raw_string in
     (* import into Postgres *)
     data_schema <~~ wlift (lookup_str "data_schema" settings) ;;
     sql <~~ wlift (PyStr.format
               "COPY {0}.{1} FROM stdin WITH CSV HEADER DELIMITER as ',' NULL as '..'"
               [data_schema; table_name]) ;;
     _ <~~ call (copy_expert w sql clean_string) (Copied sql clean_string) ;;
     wret None)
    (fun ex =>
       msg <~~ wlift (PyStr.format "IMPORT CSV INTO POSTGRES FAILED! : {0} : {1}"
                        [job_path file_dict; exn_str ex]) ;;
       wret (Some msg)) ;;
  match failed with
  | Some msg => wret msg                 (* the handler's [return] *)
  | None =>
      (* add primary key and vacuum index *)
      data_schema <~~ wlift (lookup_str "data_schema" settings) ;;
      region_id_field <~~ wlift (lookup_str "region_id_field" settings) ;;
      sql <~~ wlift (PyStr.format
                ("ALTER TABLE {0}.{1} ADD CONSTRAINT {1}_pkey PRIMARY KEY ({2});" ++
                 "ALTER TABLE {0}.{1} CLUSTER ON {1}_pkey")
                [data_schema; table_name; region_id_field]) ;;
      _ <~~ do_execute w sql ;;
      data_schema <~~ wlift (lookup_str "data_schema" settings) ;;
      sql <~~ wlift (PyStr.format "VACUUM ANALYSE {0}.{1}" [data_schema; table_name]) ;;
      _ <~~ do_execute w sql ;;
      let result := "SUCCESS" in
      _ <~~ close_session ;;
      wret result
  end.

(** *** [import_shapefile_to_postgres] and [intermediate_shapefile_load_step] *)






(* ================================================================= *)
(** ** The dispatchers: [multiprocess_list] and its two siblings *)

(** [str(result)] as [logger.info] writes it. *)
Definition result_text (result : option string) : string := default "None" result.

(** [result != "SUCCESS"]. *)
Definition not_success (result : option string) : bool :=
  match result with
  | Some s => negb (String.eqb s "SUCCESS")
  | None => true
  end.

(** [for result in result_list: if result != "SUCCESS": logger.info(result)]. *)
Fixpoint report_loop (result_list : list (option string)) : M unit :=
  match result_list with
  | [] => ret tt
  | result :: rest =>
      _ <~ (if not_success result then emit (LogInfo (result_text result))
            else ret tt) ;;
      report_loop rest
  end.

(** What the three dispatchers do once the pool has drained. *)
Definition report_results (num_jobs : nat) (result_list : list (option string))
    : M unit :=
  let num_results := List.length result_list in
  _ <~ (if (num_results <? num_jobs)%nat
        then emit (LogWarning (tab ++ "- A MULTIPROCESSING PROCESS FAILED WITHOUT AN ERROR" ++
                               newline ++ "ACTION: Check the record counts"))
        else ret tt) ;;
  report_loop result_list.

(** [multiprocessing.Pool(processes=settings['max_concurrent_processes'])]. *)
Definition make_pool (settings : gmap string pyval) : result unit :=
  match settings !! "max_concurrent_processes" with
  | Some (VInt n) =>
      if n <? 1 then Raise (ValueError "Number of processes must be at least 1")
      else Ok tt
  | Some VNone => Ok tt
  | Some _ => Raise (TypeError "an integer is required")
  | None => Raise (KeyError "max_concurrent_processes")
  end.

(** A pool: from a worker and the work items to the results, in the order
    the workers finish; it raises what a worker raised. *)
Definition pool_map : Type :=
  forall J : Type, (J -> result (option string)) -> list J ->
                   result (list (option string)).

(** The value a worker hands back to the parent process. *)
Definition worker_result {A : Type} (done : W A) (wrap : A -> option string)
    : result (option string) :=
  match snd (done []) with
  | Ok a => Ok (wrap a)
  | Raise e => Raise e
  end.

Definition multiprocess_list (imap_unordered : pool_map) (w : world)
    (mp_type : string) (work_list : list string) (settings : gmap string pyval)
    : M unit :=
  _ <~ lift (make_pool settings) ;;
  let num_jobs := List.length work_list in
  results <~ lift
    (if String.eqb mp_type "sql" then
       imap_unordered string
         (fun job => worker_result (run_sql_multiprocessing w job settings) Some)
         work_list
     else
       imap_unordered string
         (fun job => worker_result (run_command_line w job) Some)
         work_list) ;;
  report_results num_jobs results.

Definition multiprocess_csv_import (imap_unordered : pool_map) (w : world)
    (work_list : list csv_job) (settings : gmap string pyval) : M unit :=
  _ <~ lift (make_pool settings) ;;
  let num_jobs := List.length work_list in
  results <~ lift
    (imap_unordered csv_job
       (fun job => worker_result (run_csv_import_multiprocessing w job settings) Some)
       work_list) ;;
  report_results num_jobs results.


(* ================================================================= *)
(** ** Capabilities of the database: [check_postgis_version] *)

(** The loop over the parts of the PostGIS version text.  [py_float] is
    the builtin [float] on texts. *)
Fixpoint version_loop (py_float : string -> result float) (lib_strings : list string)
    (postgis_version : string) (postgis_version_num : float)
    (geos_version : string) (geos_version_num : float)
    : result (string * float * (string * float)) :=
  match lib_strings with
  | [] => Ok (postgis_version, postgis_version_num, (geos_version, geos_version_num))
  | lib_string :: rest =>
      p <- (if String.eqb (PyStr.take 8 lib_string) "POSTGIS=" then
              let postgis_version := PyStr.replace "POSTGIS=" "" lib_string in
              postgis_version_num <- py_float (PyStr.take 3 postgis_version) ;;
              Ok (postgis_version, postgis_version_num)
            else Ok (postgis_version, postgis_version_num)) ;;
      g <- (if String.eqb (PyStr.take 5 lib_string) "GEOS=" then
              let geos_version := PyStr.replace "GEOS=" "" lib_string in
              geos_version_num <- py_float (PyStr.take 3 geos_version) ;;
              Ok (geos_version, geos_version_num)
            else Ok (geos_version, geos_version_num)) ;;
      version_loop py_float rest (fst p) (snd p) (fst g) (snd g)
  end.

(** [pg_cur] gives, for the text of a query, the first column of the row
    that [fetchone] returns.  The result is the value stored under
    [settings['st_clusterkmeans_supported']]. *)
Definition check_postgis_version (py_float : string -> result float)
    (pg_cur : string -> result string) : M bool :=
  (* get Postgres, PostGIS & GEOS versions *)
  v <~ lift (pg_cur "SELECT version()") ;;
  let pg_version := hd EmptyString (PyStr.split_char "," (PyStr.replace "PostgreSQL " "" v)) in
  f <~ lift (pg_cur "SELECT PostGIS_full_version()") ;;
  let lib_strings := PyStr.split_char " " (PyStr.replace dquote "" f) in
  let postgis_version := "UNKNOWN" in
  let postgis_version_num := 0%float in
  let geos_version := "UNKNOWN" in
  let geos_version_num := 0%float in
  found <~ lift (version_loop py_float lib_strings postgis_version postgis_version_num
                   geos_version geos_version_num) ;;
  let '(postgis_version, postgis_version_num, (geos_version, geos_version_num)) := found in
  let supported :=
    if (2.2 <=? postgis_version_num)%float && (3.5 <=? geos_version_num)%float
    then true else false in
  msg <~ lift (PyStr.format
            (tab ++ "- using Postgres {0} and PostGIS {1} (with GEOS {2})")
            [pg_version; postgis_version; geos_version]) ;;
  _ <~ emit (LogInfo msg) ;;
  ret supported.

(* ================================================================= *)
(** ** Further vocabulary: workers and dispatchers *)

(** The warning of the dispatchers. *)
Definition missing_results_record : out :=
  LogWarning (tab ++ "- A MULTIPROCESSING PROCESS FAILED WITHOUT AN ERROR" ++
              newline ++ "ACTION: Check the record counts").

(** The records the dispatchers log for the results of a drained pool. *)
Definition reported (num_jobs : nat) (result_list : list (option string)) : list out :=
  ((if (List.length result_list <? num_jobs)%nat then [missing_results_record] else []) ++
   map (fun result => LogInfo (result_text result))
     (List.filter not_success result_list))%list.

(** An outside where the database accepts every statement but a division
    by zero, no file can be read, and commands end with status 1. *)
Definition sample_world : world := {|
  connect := fun _ => Ok tt;
  execute := fun sql =>
    if String.eqb sql "SELECT 1/0" then Raise (DatabaseError "division by zero")
    else Ok tt;
  fetchall := fun _ => Ok ["B1 double precision"; "B2 double precision"];
  copy_expert := fun _ _ => Ok tt;
  read_file := fun _ => Raise (ValueError "No such file or directory");
  write_file := fun _ _ => Ok tt;
  subprocess_call := fun _ => Ok 1;
  popen_communicate := fun _ => Ok ("CREATE TABLE t (gid serial);", "")
|}.

Definition sample_settings : gmap string pyval :=
  {[ "pg_connect_string" := VStr "dbname='geo'";
     "data_schema" := VStr "census_2016_data";
     "pg_user" := VStr "postgres";
     "region_id_field" := VStr "aus_code_2016";
     "max_concurrent_processes" := VInt 3 ]}.

(** A pool that runs the jobs one after the other. *)
Definition serial_pool : pool_map :=
  fun J worker =>
    fix go (jobs : list J) : result (list (option string)) :=
      match jobs with
      | [] => Ok []
      | job :: rest => r <- worker job ;; rs <- go rest ;; Ok (r :: rs)
      end.






(** The statements of [run_csv_import_multiprocessing]. *)
Definition csv_fields_sql (data_schema table : string) : string :=
  "SELECT sequential_id || ' double precision' AS field FROM " ++ data_schema ++
  ".metadata_stats WHERE lower(table_number) LIKE '" ++ table ++ "%'".

Definition csv_create_table_sql
    (data_schema table_name fields_string pg_user region_id_field : string) : string :=
  "DROP TABLE IF EXISTS " ++ data_schema ++ "." ++ table_name ++ " CASCADE;" ++
  "CREATE TABLE " ++ data_schema ++ "." ++ table_name ++ " (" ++ region_id_field ++
  " text, " ++ fields_string ++ ") WITH (OIDS=FALSE);" ++
  "ALTER TABLE " ++ data_schema ++ ".metadata_tables OWNER TO " ++ pg_user.

Definition csv_copy_sql (data_schema table_name : string) : string :=
  "COPY " ++ data_schema ++ "." ++ table_name ++
  " FROM stdin WITH CSV HEADER DELIMITER as ',' NULL as '..'".

Definition csv_primary_key_sql (data_schema table_name region_id_field : string)
    : string :=
  "ALTER TABLE " ++ data_schema ++ "." ++ table_name ++ " ADD CONSTRAINT " ++
  table_name ++ "_pkey PRIMARY KEY (" ++ region_id_field ++ ");" ++
  "ALTER TABLE " ++ data_schema ++ "." ++ table_name ++ " CLUSTER ON " ++
  table_name ++ "_pkey".

Definition csv_vacuum_sql (data_schema table_name : string) : string :=
  "VACUUM ANALYSE " ++ data_schema ++ "." ++ table_name.

Definition csv_failed_text (path err : string) : string :=
  "IMPORT CSV INTO POSTGRES FAILED! : " ++ path ++ " : " ++ err.

Definition sample_csv : csv_job := {|
  job_path := "/data/2016Census_G01_AUS_SA1.csv";
  job_table := "g01";
  job_boundary := "sa1"
|}.

(** [" " not in s and "\x1A" not in s], character by character. *)
Definition is_csv_char (c : ascii) : bool :=
  negb (Ascii.eqb c " ") && negb (Ascii.eqb c "026").
(** The parts of the two version texts [check_postgis_version] reads. *)
Definition pg_version_of (v : string) : string :=
  hd EmptyString (PyStr.split_char "," (PyStr.replace "PostgreSQL " "" v)).

Definition lib_strings_of (f : string) : list string :=
  PyStr.split_char " " (PyStr.replace dquote "" f).

(** [lib_string[:8] == "POSTGIS="] and [lib_string[:5] == "GEOS="]. *)
Definition is_postgis_token (lib_string : string) : bool :=
  String.eqb (PyStr.take 8 lib_string) "POSTGIS=".

Definition is_geos_token (lib_string : string) : bool :=
  String.eqb (PyStr.take 5 lib_string) "GEOS=".

(** The record [check_postgis_version] logs. *)
Definition version_record (pg_version postgis_version geos_version : string) : out :=
  LogInfo (tab ++ "- using Postgres " ++ pg_version ++ " and PostGIS " ++
           postgis_version ++ " (with GEOS " ++ geos_version ++ ")").

(** A server with PostGIS 3.4 and GEOS 3.10, and [float] on the two texts
    that are read from its answer. *)
Definition sample_versions (query : string) : result string :=
  if String.eqb query "SELECT version()"
  then Ok "PostgreSQL 16.1 on x86_64-pc-linux-gnu, compiled by gcc, 64-bit"
  else Ok ("POSTGIS=" ++ dquote ++ "3.4.0 0874ea3" ++ dquote ++
           " [EXTENSION] PGSQL=" ++ dquote ++ "160" ++ dquote ++
           " GEOS=" ++ dquote ++ "3.10.2-CAPI-1.16.0" ++ dquote ++
           " PROJ=" ++ dquote ++ "8.2.1" ++ dquote).

Definition sample_float (s : string) : result float :=
  if String.eqb s "3.4" then Ok 3.4%float
  else if String.eqb s "3.1" then Ok 3.1%float
  else Raise (ValueError ("could not convert string to float: '" ++ s ++ "'")).

(* ================================================================= *)
(** * Properties *)

(** ** Checking a boolean property on a range of zoom levels *)

Lemma forallb_seqZ (f : Z -> bool) (m n : Z) :
  forallb f (seqZ m n) = true -> forall z, m <= z < m + n -> f z = true.
Proof.
  intros Hall z Hz.
  rewrite forallb_forall in Hall.
  apply Hall, list_elem_of_In, elem_of_seqZ. exact Hz.
Qed.

(** ** [get_boundary] *)

(** C5.  [get_boundary] is a total function of the integer zoom level and
    follows the tier table: below 7 the state tier with threshold 80, then
    sa4/40 on [7,9), sa3/20 on [9,11), sa2/15 on [11,14), sa1/10 on [14,17),
    and the mesh-block tier with threshold 3 from 17 upwards. *)
Theorem get_boundary_tier_table (zoom : Z) :
  (zoom < 7 -> get_boundary zoom = ("ste", 80)) /\
  (7 <= zoom < 9 -> get_boundary zoom = ("sa4", 40)) /\
  (9 <= zoom < 11 -> get_boundary zoom = ("sa3", 20)) /\
  (11 <= zoom < 14 -> get_boundary zoom = ("sa2", 15)) /\
  (14 <= zoom < 17 -> get_boundary zoom = ("sa1", 10)) /\
  (17 <= zoom -> get_boundary zoom = ("mb", 3)).
Proof.
  unfold get_boundary.
  destruct (Z.ltb_spec zoom 7); [ repeat split; intros; (reflexivity || lia) | ].
  destruct (Z.ltb_spec zoom 9); [ repeat split; intros; (reflexivity || lia) | ].
  destruct (Z.ltb_spec zoom 11); [ repeat split; intros; (reflexivity || lia) | ].
  destruct (Z.ltb_spec zoom 14); [ repeat split; intros; (reflexivity || lia) | ].
  destruct (Z.ltb_spec zoom 17); repeat split; intros; (reflexivity || lia).
Qed.

(** ** [get_tolerance] *)

Lemma pow2_not_zero (k : Z) : Qeq_bool (2 ^ k) 0 = false.
Proof.
  destruct (Qeq_bool (2 ^ k) 0) eqn:E; [ | reflexivity ].
  apply Qeq_bool_iff in E.
  pose proof (Qpower_0_lt 2 k ltac:(reflexivity)) as Hpos.
  rewrite E in Hpos. discriminate Hpos.
Qed.

(** In exact arithmetic the function never raises and has a closed form. *)
Lemma get_tolerance_exact (zoom : Z) :
  get_tolerance (F := Q) zoom =
  Ok (156543.03390625 / 2 ^ (zoom + 1) * (156543.03390625 / 2 ^ (zoom + 1))
      * inject_Z 7)%Q.
Proof.
  unfold get_tolerance. simpl.
  rewrite pow2_not_zero. reflexivity.
Qed.

Lemma metres_per_pixel_decreasing (z1 z2 : Z) :
  z1 < z2 ->
  (0 < 156543.03390625 / 2 ^ z2 /\
   156543.03390625 / 2 ^ z2 < 156543.03390625 / 2 ^ z1)%Q.
Proof.
  intros Hlt.
  pose proof (Qpower_0_lt 2 z1 ltac:(reflexivity)) as H1.
  pose proof (Qpower_0_lt 2 z2 ltac:(reflexivity)) as H2.
  pose proof (Qpower_lt_compat_l 2 z1 z2 Hlt ltac:(reflexivity)) as H12.
  assert (Hc : (0 < 156543.03390625)%Q) by reflexivity.
  split.
  - apply Qlt_shift_div_l; [ exact H2 | ]. rewrite Qmult_0_l. exact Hc.
  - unfold Qdiv. apply Qmult_lt_l; [ exact Hc | ].
    apply -> Qinv_lt_contravar; assumption.
Qed.

Lemma f64_tolerance_table :
  forallb (fun z1 => forallb (fun z2 => (z2 <=? z1) || f64_tolerance_decreases z1 z2)
                       (seqZ 0 31))
          (seqZ 0 31) = true.
Proof. vm_compute. reflexivity. Qed.

(** C6.  The tolerance is 7 times the square of the metres per pixel at
    [zoom + 1], that is of [156543.03390625 / 2^(zoom+1)]; it is strictly
    decreasing in the zoom level; at zoom 0 it is [7 * (156543.03390625/2)^2].
    The first three parts are in exact arithmetic, for every integer zoom;
    the last two are the same facts for the binary64 computation, on the
    zoom levels 0 to 30. *)
Theorem get_tolerance_formula_decreasing :
  (forall zoom : Z, exists t : Q,
      get_tolerance zoom = Ok t /\
      (t == 7 * (156543.03390625 / 2 ^ (zoom + 1)) ^ 2)%Q) /\
  (forall (z1 z2 : Z) (t1 t2 : Q),
      z1 < z2 -> get_tolerance z1 = Ok t1 -> get_tolerance z2 = Ok t2 ->
      (t2 < t1)%Q) /\
  (exists t0 : Q,
      get_tolerance 0 = Ok t0 /\ (t0 == 7 * (156543.03390625 / 2) ^ 2)%Q) /\
  (forall z1 z2 : Z, 0 <= z1 -> z1 < z2 -> z2 <= 30 ->
      exists t1 t2 : float,
        get_tolerance z1 = Ok t1 /\ get_tolerance z2 = Ok t2 /\
        (t2 <? t1)%float = true) /\
  (let c : float := lit 156543.03390625%Q in
   get_tolerance 0 = Ok (c / 2 * (c / 2) * 7)%float).
Proof.
  split; [ | split; [ | split; [ | split ] ] ].
  - intros zoom. eexists. split; [ apply get_tolerance_exact | ].
    change (inject_Z 7) with 7%Q.
    generalize (156543.03390625 / 2 ^ (zoom + 1))%Q. intros a. ring.
  - intros z1 z2 t1 t2 Hlt H1 H2.
    rewrite get_tolerance_exact in H1, H2.
    injection H1 as <-. injection H2 as <-.
    destruct (metres_per_pixel_decreasing (z1 + 1) (z2 + 1) ltac:(lia)) as [Hpos Hlt'].
    change (inject_Z 7) with 7%Q.
    set (a := (156543.03390625 / 2 ^ (z1 + 1))%Q) in *.
    set (b := (156543.03390625 / 2 ^ (z2 + 1))%Q) in *.
    apply Qmult_lt_compat_r; [ reflexivity | ].
    apply Qlt_trans with (b * a)%Q.
    + apply Qmult_lt_l; assumption.
    + apply Qmult_lt_compat_r; [ | assumption ].
      apply Qlt_trans with b; assumption.
  - eexists. split; [ apply get_tolerance_exact | ].
    change (inject_Z 7) with 7%Q. change (0 + 1) with 1.
    change (2 ^ 1)%Q with 2%Q.
    generalize (156543.03390625 / 2)%Q. intros a. ring.
  - intros z1 z2 H0 Hlt H30.
    pose proof (forallb_seqZ _ _ _ f64_tolerance_table z1 ltac:(lia)) as Hrow.
    cbv beta in Hrow.
    pose proof (forallb_seqZ _ _ _ Hrow z2 ltac:(lia)) as Hcell.
    cbv beta in Hcell.
    apply orb_true_iff in Hcell. destruct Hcell as [Hle | Hdec].
    + apply Z.leb_le in Hle. lia.
    + unfold f64_tolerance_decreases in Hdec.
      destruct (get_tolerance z1) as [t1 | ]; [ | discriminate Hdec ].
      destruct (get_tolerance z2) as [t2 | ]; [ | discriminate Hdec ].
      exists t1, t2. split; [ reflexivity | split; [ reflexivity | exact Hdec ] ].
  - vm_compute. reflexivity.
Qed.

(** ** [get_decimal_places] *)






(** ** Strings: basic facts *)

(** Appending to a literal computes under [simpl]. *)
#[local] Arguments String.append : simpl nomatch.

Lemma append_empty_r (s : string) : s ++ "" = s.
Proof. induction s as [ | c s IH ]; simpl; [ | rewrite IH ]; reflexivity. Qed.

Lemma append_assoc (s1 s2 s3 : string) : (s1 ++ s2) ++ s3 = s1 ++ (s2 ++ s3).
Proof. induction s1 as [ | c s1 IH ]; simpl; [ | rewrite IH ]; reflexivity. Qed.

(** ** The class-break functions: the handler and the fetched rows *)

Lemma print_failed_output (data_table stat_field : string) (ex : pyexn) (o : list out) :
  print_failed data_table stat_field ex o =
  ((o ++ [Printed (failed_line data_table stat_field ex)])%list, Ok tt).
Proof.
  unfold print_failed, failed_line, mbind, lift, emit. simpl.
  rewrite append_empty_r. reflexivity.
Qed.

#[local] Arguments print_failed : simpl never.



(** C3.  When the guarded block of [get_kmeans_bins] raises (the query fails
    in [execute], or while it is built), the error is caught, one line with
    the data table, the statistic and the error is printed, and the empty
    list is returned; when the query returns no rows the empty list is
    returned and nothing is printed.  [get_equal_count_bins] behaves the same
    when its query raises (it has printed the query before). *)
Theorem bins_query_failure_gives_empty_list :
  (forall (V : Type) (data_table boundary_table stat_field : string)
          (num_classes min_val : Z) (map_type : string)
          (pg_cur : string -> result (list (val_row V)))
          (settings : gmap string pyval) (ex : pyexn),
      (q <- kmeans_sql_string data_table boundary_table stat_field
              num_classes min_val map_type settings ;; pg_cur q) = Raise ex ->
      run (get_kmeans_bins data_table boundary_table stat_field num_classes
             min_val map_type pg_cur settings) =
      ([Printed (failed_line data_table stat_field ex)], Ok [])) /\
  (forall (V : Type) (data_table boundary_table stat_field : string)
          (num_classes min_val : Z) (map_type : string)
          (pg_cur : string -> result (list (val_row V)))
          (settings : gmap string pyval) (q : string),
      kmeans_sql_string data_table boundary_table stat_field
        num_classes min_val map_type settings = Ok q ->
      pg_cur q = Ok [] ->
      run (get_kmeans_bins data_table boundary_table stat_field num_classes
             min_val map_type pg_cur settings) = ([], Ok [])) /\
  (forall (V : Type) (data_table boundary_table stat_field : string)
          (num_classes : Z) (map_type : string)
          (pg_cur : string -> result (list (val_row V)))
          (settings : gmap string pyval) (q : string) (ex : pyexn),
      equal_count_sql_string data_table boundary_table stat_field
        num_classes map_type settings = Ok q ->
      pg_cur q = Raise ex ->
      run (get_equal_count_bins data_table boundary_table stat_field num_classes
             map_type pg_cur settings) =
      ([Printed q; Printed (failed_line data_table stat_field ex)], Ok [])).
Proof.
  split; [ | split ].
  - intros V dt bt sf n mv mt pg_cur settings ex Hraise.
    unfold run, get_kmeans_bins, try_except, mbind, lift, ret.
    destruct (kmeans_sql_string dt bt sf n mv mt settings) as [q | e];
      cbn [rbind] in Hraise; cbv beta iota.
    + rewrite Hraise. cbv beta iota. rewrite print_failed_output. reflexivity.
    + injection Hraise as ->. rewrite print_failed_output. reflexivity.
  - intros V dt bt sf n mv mt pg_cur settings q Hq Hrows.
    unfold run, get_kmeans_bins, try_except, mbind, lift, ret.
    rewrite Hq, Hrows. reflexivity.
  - intros V dt bt sf n mt pg_cur settings q ex Hq Hraise.
    unfold run, get_equal_count_bins, try_except, mbind, lift, ret, emit.
    rewrite Hq. cbv beta iota. rewrite Hraise. cbv beta iota.
    rewrite print_failed_output. reflexivity.
Qed.

(** C4.  When the equal-interval query succeeds on no rows, so that the
    fetched [min] and [max] are both [None], [get_equal_interval_bins] does
    not return: the subtraction after the guarded block raises a [TypeError]
    that nothing catches. *)
Theorem equal_interval_no_rows_raises
    (F : Type) (HF : PyNum F) (data_table boundary_table stat_field : string)
    (num_classes : Z) (map_type : string)
    (pg_cur : string -> result (min_max_row F))
    (settings : gmap string pyval) (q : string) :
  equal_interval_sql_string data_table boundary_table stat_field map_type settings
    = Ok q ->
  pg_cur q = Ok {| row_min := None; row_max := None |} ->
  run (get_equal_interval_bins data_table boundary_table stat_field num_classes
         map_type pg_cur settings) =
  ([], Raise (TypeError
                "unsupported operand type(s) for -: 'NoneType' and 'NoneType'")).
Proof.
  intros Hq Hrow.
  unfold run, get_equal_interval_bins, try_except, mbind, lift, ret.
  rewrite Hq, Hrow. reflexivity.
Qed.

(** ** Equal-interval breaks *)

Section IntervalLoop.
Context {F : Type} `{PyNum F}.





End IntervalLoop.





(** ** Equal-count breaks: the query that is issued *)

Lemma contains_cons_false (pat : string) (c : ascii) (s : string) :
  PyStr.contains pat (String c s) = false ->
  String.prefix pat (String c s) = false /\ PyStr.contains pat s = false.
Proof.
  simpl. intros Hc. apply orb_false_iff in Hc. destruct Hc as [Hp Hc].
  split; assumption.
Qed.

(** [mogrify] copies a text without percent sign unchanged. *)
Lemma mogrify_app_plain (s rest : string) (args : list string) :
  PyStr.contains "%" s = false ->
  PyStr.mogrify (s ++ rest) args = (r <- PyStr.mogrify rest args ;; Ok (s ++ r)).
Proof.
  induction s as [ | c s IH ]; intros Hplain.
  - simpl. destruct (PyStr.mogrify rest args); reflexivity.
  - apply contains_cons_false in Hplain. destruct Hplain as [Hp Hc].
    assert (Hne : c <> "%"%char).
    { intros ->. simpl in Hp. destruct s; discriminate Hp. }
    simpl. destruct (Ascii.eqb_spec c "%") as [Heq | _]; [ contradiction | ].
    rewrite (IH Hc). destruct (PyStr.mogrify rest args); reflexivity.
Qed.

Lemma mogrify_placeholder (rest a : string) (args : list string) :
  PyStr.mogrify ("%s" ++ rest) (a :: args) =
  (r <- PyStr.mogrify rest args ;; Ok (a ++ r)).
Proof. reflexivity. Qed.

Lemma mogrify_end : PyStr.mogrify "" [] = Ok "".
Proof. reflexivity. Qed.

(** Runs [mogrify] over a text given as literal pieces, placeholders and
    plain variables. *)
Ltac mogrify_pieces :=
  repeat first
    [ rewrite mogrify_placeholder
    | rewrite mogrify_app_plain by (first [ assumption | vm_compute; reflexivity ]) ];
  rewrite mogrify_end; cbn [rbind].

Lemma equal_count_percent_formatted (region_id_field : string) :
  PyStr.format equal_count_percent_sql [region_id_field] =
  Ok ("WITH classes AS (SELECT " ++ "%s" ++
      " as val, ntile(7) OVER (ORDER BY " ++ "%s" ++
      ") AS class_id FROM " ++ "%s" ++
      " AS tab INNER JOIN " ++ "%s" ++
      " AS bdy ON tab." ++ region_id_field ++
      " = bdy.id WHERE " ++ "%s" ++ " > 0.0 AND " ++ "%s" ++
      " < 100.0 AND bdy.population > 5.0) SELECT MAX(val) AS val, class_id FROM classes GROUP BY class_id ORDER BY class_id" ++ "").
Proof. vm_compute. reflexivity. Qed.

Lemma equal_count_values_formatted (region_id_field : string) :
  PyStr.format equal_count_values_sql [region_id_field] =
  Ok ("WITH classes AS (SELECT " ++ "%s" ++
      " as val, ntile(" ++ "%s" ++
      ") OVER (ORDER BY " ++ "%s" ++
      ") AS class_id FROM " ++ "%s" ++
      " AS tab INNER JOIN " ++ "%s" ++
      " AS bdy ON tab." ++ region_id_field ++
      " = bdy.id WHERE " ++ "%s" ++
      " > 0.0 AND bdy.population > 5.0) SELECT MAX(val) AS val, class_id FROM classes GROUP BY class_id ORDER BY class_id" ++ "").
Proof. vm_compute. reflexivity. Qed.

(** With a region identifier field free of percent signs, the query of the
    [percent] branch in closed form: the bucket count is the literal 7. *)
Lemma equal_count_percent_query (data_table boundary_table stat_field : string)
    (num_classes : Z) (map_type : string) (settings : gmap string pyval)
    (region_id_field : string) :
  map_type <> "values" ->
  settings !! "region_id_field" = Some (VStr region_id_field) ->
  PyStr.contains "%" region_id_field = false ->
  equal_count_sql_string data_table boundary_table stat_field num_classes
    map_type settings =
  Ok ("WITH classes AS (SELECT " ++ stat_field ++
      " as val, ntile(7) OVER (ORDER BY " ++ stat_field ++
      ") AS class_id FROM " ++ data_table ++
      " AS tab INNER JOIN " ++ boundary_table ++
      " AS bdy ON tab." ++ region_id_field ++
      " = bdy.id WHERE " ++ stat_field ++ " > 0.0 AND " ++ stat_field ++
      " < 100.0 AND bdy.population > 5.0) SELECT MAX(val) AS val, class_id FROM classes GROUP BY class_id ORDER BY class_id").
Proof.
  intros Hmt Hrid Hplain.
  unfold equal_count_sql_string, lookup_str.
  apply String.eqb_neq in Hmt. rewrite Hmt, Hrid. cbn [rbind].
  rewrite equal_count_percent_formatted. cbn [rbind].
  mogrify_pieces. reflexivity.
Qed.

(** The query of the [values] branch: the bucket count is [num_classes]. *)
Lemma equal_count_values_query (data_table boundary_table stat_field : string)
    (num_classes : Z) (settings : gmap string pyval) (region_id_field : string) :
  settings !! "region_id_field" = Some (VStr region_id_field) ->
  PyStr.contains "%" region_id_field = false ->
  equal_count_sql_string data_table boundary_table stat_field num_classes
    "values" settings =
  Ok ("WITH classes AS (SELECT " ++ stat_field ++
      " as val, ntile(" ++ PyStr.str_of_Z num_classes ++
      ") OVER (ORDER BY " ++ stat_field ++
      ") AS class_id FROM " ++ data_table ++
      " AS tab INNER JOIN " ++ boundary_table ++
      " AS bdy ON tab." ++ region_id_field ++
      " = bdy.id WHERE " ++ stat_field ++
      " > 0.0 AND bdy.population > 5.0) SELECT MAX(val) AS val, class_id FROM classes GROUP BY class_id ORDER BY class_id").
Proof.
  intros Hrid Hplain.
  unfold equal_count_sql_string, lookup_str.
  rewrite Hrid. cbn [rbind String.eqb Ascii.eqb Bool.eqb].
  rewrite equal_count_values_formatted. cbn [rbind].
  mogrify_pieces. reflexivity.
Qed.



(** ** Searching and replacing in strings *)

Lemma drop_nil (n : nat) : PyStr.drop n "" = "".
Proof. destruct n; reflexivity. Qed.



(** [pat in s] holds exactly when [s.find(pat)] is not [-1]. *)
Lemma contains_find (pat s : string) :
  PyStr.contains pat s = match PyStr.find pat s with Some _ => true | None => false end.
Proof.
  induction s as [ | c s IH ].
  - cbn [PyStr.contains PyStr.find]. destruct (String.prefix pat ""); reflexivity.
  - cbn [PyStr.contains PyStr.find].
    destruct (String.prefix pat (String c s)); [ reflexivity | ].
    rewrite IH. destruct (PyStr.find pat s); reflexivity.
Qed.



Lemma replace_from_skip (k : nat) (pat new s : string) :
  PyStr.replace_from k pat new s = PyStr.replace_from 0 pat new (PyStr.drop k s).
Proof.
  revert k. induction s as [ | c s IH ]; intros k.
  - rewrite drop_nil. reflexivity.
  - destruct k as [ | j ]; [ reflexivity | ].
    cbn [PyStr.replace_from PyStr.drop]. apply IH.
Qed.

(** [replace] rewrites the first occurrence and goes on after it. *)
Lemma replace_first (pat new s : string) (n : nat) :
  pat <> "" ->
  PyStr.find pat s = Some n ->
  PyStr.replace pat new s =
  PyStr.take n s ++ new ++ PyStr.replace pat new (PyStr.drop (n + String.length pat) s).
Proof.
  intros Hpat. unfold PyStr.replace.
  revert n. induction s as [ | c s IH ]; intros n Hf.
  - simpl in Hf. destruct pat; [ contradiction | discriminate Hf ].
  - cbn [PyStr.find] in Hf. cbn [PyStr.replace_from].
    destruct (String.prefix pat (String c s)) eqn:Hp.
    + injection Hf as <-. cbn [PyStr.take]. simpl String.append at 1.
      rewrite replace_from_skip.
      destruct pat as [ | a pat ]; [ contradiction | ].
      cbn [String.length Nat.add PyStr.drop].
      replace (S (String.length pat) - 1)%nat with (String.length pat) by lia.
      reflexivity.
    + destruct (PyStr.find pat s) as [m | ] eqn:Hm; [ | discriminate Hf ].
      injection Hf as <-. cbn [PyStr.take Nat.add PyStr.drop].
      rewrite (IH m eq_refl). reflexivity.
Qed.

(** Without an occurrence [replace] changes nothing. *)
Lemma replace_absent (pat new s : string) :
  PyStr.find pat s = None -> PyStr.replace pat new s = s.
Proof.
  unfold PyStr.replace. induction s as [ | c s IH ]; intros Hf.
  - reflexivity.
  - cbn [PyStr.find] in Hf. cbn [PyStr.replace_from].
    destruct (String.prefix pat (String c s)); [ discriminate Hf | ].
    destruct (PyStr.find pat s); [ discriminate Hf | ].
    rewrite IH by reflexivity. reflexivity.
Qed.

(** ** Injecting a range predicate into the template *)



(** A template where ["WHERE "] follows something other than a space (a line
    break, say) passes the first test but holds no [" WHERE "] to replace,
    so the statement comes back unchanged. *)
Lemma inject_where_unspaced_keyword (the_sql where_clause : string) :
  PyStr.contains "WHERE " the_sql = true ->
  PyStr.contains " WHERE " the_sql = false ->
  run (inject_where the_sql where_clause) = ([], Ok the_sql).
Proof.
  intros Hw Hsp. unfold run, inject_where. rewrite Hw.
  rewrite contains_find in Hsp.
  destruct (PyStr.find " WHERE " the_sql) eqn:Hf; [ discriminate Hsp | ].
  rewrite (replace_absent _ _ _ Hf). reflexivity.
Qed.

(** ** Range partitioning *)

Lemma float_div_ok (a b : Z) :
  b <> 0 -> float_div a b = Ok (inject_Z a / inject_Z b)%Q.
Proof.
  intros Hb. unfold float_div. cbn [ndiv exact_num of_int].
  destruct (Qeq_bool (inject_Z b) 0) eqn:E; [ | reflexivity ].
  apply Qeq_bool_iff in E. unfold Qeq in E. simpl in E. lia.
Qed.

(** The floor of the exact quotient is integer floor division. *)
Lemma Qfloor_div (a b : Z) :
  b <> 0 -> Qfloor (inject_Z a / inject_Z b) = a / b.
Proof.
  intros Hb. destruct b as [ | p | p ]; [ contradiction | | ].
  - rewrite <- Qmake_Qdiv. reflexivity.
  - assert (E : (inject_Z a / inject_Z (Z.neg p) == (- a) # p)%Q).
    { unfold Qeq, Qdiv, Qinv, Qmult, inject_Z. simpl. lia. }
    rewrite E. simpl. change (Z.pos p) with (- Z.neg p).
    apply Z.div_opp_opp. discriminate.
Qed.

Lemma key_ranges_length (n : nat) (rows_per_request start_pkey : Z) :
  List.length (key_ranges n rows_per_request start_pkey) = n.
Proof.
  revert start_pkey. induction n as [ | k IH ]; intros s; simpl;
    [ | rewrite IH ]; reflexivity.
Qed.


Lemma where_clause_of_ok (table_alias : string) (start_pkey end_pkey : Z)
    (table_gid : string) :
  where_clause_of table_alias start_pkey end_pkey table_gid =
  Ok (" WHERE " ++ table_alias ++ "." ++ table_gid ++ " > " ++
      PyStr.str_of_Z start_pkey ++ " AND " ++ table_alias ++ "." ++ table_gid ++
      " <= " ++ PyStr.str_of_Z end_pkey).
Proof.
  transitivity
    (Ok (" WHERE " ++ table_alias ++ "." ++ table_gid ++ " > " ++
         PyStr.str_of_Z start_pkey ++ " AND " ++ table_alias ++ "." ++ table_gid ++
         " <= " ++ PyStr.str_of_Z end_pkey ++ "")).
  - unfold where_clause_of.
    generalize (PyStr.str_of_Z start_pkey) (PyStr.str_of_Z end_pkey).
    intros s e. vm_compute. reflexivity.
  - rewrite append_empty_r. reflexivity.
Qed.


(** The plan: the quotient is compared with 10; below it the rows per
    request are forced to 10 and the processes recomputed. *)
Lemma partition_plan_spec (diff mcp : Z) :
  mcp <> 0 ->
  exists (rows_per_request processes : Z) (adjusted : bool),
    partition_plan diff mcp = Ok (rows_per_request, processes, adjusted) /\
    ((inject_Z diff / inject_Z mcp < 10)%Q ->
       adjusted = true /\ rows_per_request = 10 /\ processes = diff / 10 + 1) /\
    (~ (inject_Z diff / inject_Z mcp < 10)%Q ->
       adjusted = false /\ rows_per_request = diff / mcp + 1 /\ processes = mcp).
Proof.
  intros Hmcp. unfold partition_plan.
  rewrite (float_div_ok diff mcp Hmcp). cbn [rbind].
  destruct (Qle_bool 10 (inject_Z diff / inject_Z mcp)) eqn:E; cbn [negb].
  - apply Qle_bool_iff in E.
    eexists _, _, _. split; [ reflexivity | ]. split.
    + intros Hlt. exfalso. exact (Qlt_not_le _ _ Hlt E).
    + intros _. split; [ reflexivity | ]. split; [ | reflexivity ].
      rewrite (Qfloor_div diff mcp Hmcp). reflexivity.
  - eexists _, _, _. split; [ reflexivity | ]. split.
    + intros _. split; [ reflexivity | ]. split; [ reflexivity | ].
      change 10%Q with (inject_Z 10).
      rewrite (Qfloor_div diff 10 ltac:(discriminate)). reflexivity.
    + intros Hnlt. exfalso. apply Hnlt. apply Qnot_le_lt.
      intros Hle. apply Qle_bool_iff in Hle. congruence.
Qed.


Lemma min_max_sql_ok (table_schema table_name table_gid : string) :
  PyStr.format "SELECT MIN({2}) AS min, MAX({2}) AS max FROM {0}.{1}"
    [table_schema; table_name; table_gid] =
  Ok ("SELECT MIN(" ++ table_gid ++ ") AS min, MAX(" ++ table_gid ++
      ") AS max FROM " ++ table_schema ++ "." ++ table_name).
Proof.
  transitivity
    (Ok ("SELECT MIN(" ++ table_gid ++ ") AS min, MAX(" ++ table_gid ++
         ") AS max FROM " ++ table_schema ++ "." ++ table_name ++ "")).
  - vm_compute. reflexivity.
  - rewrite append_empty_r. reflexivity.
Qed.

Lemma adjusted_message_ok (processes : string) :
  PyStr.format
    (tab ++ tab ++
     "- running {0} processes (adjusted due to low row count in table to split)")
    [processes] =
  Ok (tab ++ tab ++ "- running " ++ processes ++
      " processes (adjusted due to low row count in table to split)").
Proof. vm_compute. reflexivity. Qed.


(** ** Settings *)

Lemma connect_string_ok (db host port user password : string) :
  PyStr.format "dbname='{0}' host='{1}' port='{2}' user='{3}' password='{4}'"
    [db; host; port; user; password] =
  Ok ("dbname='" ++ db ++ "' host='" ++ host ++ "' port='" ++ port ++
      "' user='" ++ user ++ "' password='" ++ password ++ "'").
Proof. vm_compute. reflexivity. Qed.

(** Looks a literal key up in a dictionary built by successive stores. *)
Ltac lookup_settings :=
  repeat (rewrite lookup_insert_ne by discriminate);
  rewrite lookup_insert_eq; reflexivity.

(** C10.  For a census year other than ['2016'] and ['2011'],
    [get_settings] returns [None].  For ['2016'] and for ['2011'] it returns a
    dictionary that holds the region identifier field, the three schema
    names given on the command line, and a non-empty list of boundary
    tables. *)
Theorem get_settings_by_census_year (env : gmap string string)
    (script_dir : string) (a : args) :
  (census_year a <> "2016" -> census_year a <> "2011" ->
     get_settings env script_dir a = Ok None) /\
  (census_year a = "2016" ->
     exists settings : gmap string pyval,
       get_settings env script_dir a = Ok (Some settings) /\
       settings !! "region_id_field" = Some (VStr "aus_code_2016") /\
       settings !! "data_schema" = Some (VStr (data_schema a)) /\
       settings !! "boundary_schema" = Some (VStr (boundary_schema a)) /\
       settings !! "web_schema" = Some (VStr (web_schema a)) /\
       settings !! "bdy_table_dicts" = Some (VDictList bdy_table_dicts_2016) /\
       List.length bdy_table_dicts_2016 = 18%nat) /\
  (census_year a = "2011" ->
     exists settings : gmap string pyval,
       get_settings env script_dir a = Ok (Some settings) /\
       settings !! "region_id_field" = Some (VStr "region_id") /\
       settings !! "data_schema" = Some (VStr (data_schema a)) /\
       settings !! "boundary_schema" = Some (VStr (boundary_schema a)) /\
       settings !! "web_schema" = Some (VStr (web_schema a)) /\
       settings !! "bdy_table_dicts" = Some (VDictList bdy_table_dicts_2011) /\
       List.length bdy_table_dicts_2011 = 21%nat).
Proof.
  unfold get_settings. cbv zeta. rewrite connect_string_ok. cbn [rbind].
  split; [ | split ].
  - intros H16 H11.
    apply String.eqb_neq in H16. apply String.eqb_neq in H11.
    rewrite H16, H11. reflexivity.
  - intros H16. rewrite H16. cbn [String.eqb Ascii.eqb Bool.eqb andb].
    eexists. split; [ reflexivity | ].
    repeat split; lookup_settings.
  - intros H11. rewrite H11. cbn [String.eqb Ascii.eqb Bool.eqb andb].
    eexists. split; [ reflexivity | ].
    repeat split; lookup_settings.
Qed.

(* ================================================================= *)
(** * The statements at concrete inputs *)

(** [get_boundary] at zoom 12, from the tier table. *)
Lemma get_boundary_tier_table_witness :
  11 <= 12 < 14 /\ get_boundary 12 = ("sa2", 15).
Proof.
  split; [ lia | ].
  apply (proj1 (proj2 (proj2 (proj2 (get_boundary_tier_table 12))))). lia.
Defined.

(** The exact tolerances at zoom 3 and zoom 4. *)
Lemma get_tolerance_formula_decreasing_witness :
  3 < 4 /\
  forall t1 t2 : Q,
    get_tolerance 3 = Ok t1 -> get_tolerance 4 = Ok t2 -> (t2 < t1)%Q.
Proof.
  split; [ lia | ].
  intros t1 t2.
  apply (proj1 (proj2 get_tolerance_formula_decreasing) 3 4 t1 t2). lia.
Defined.




Lemma bins_query_failure_gives_empty_list_witness :
  run (get_kmeans_bins "census_2016_data.ste_g01" "census_2016_web.ste" "g3" 7 80
         "values" failing_cursor settings_2016) =
  ([Printed "census_2016_data.ste_g01 - g3 Failed: relation does not exist"], Ok []).
Proof.
  apply (proj1 bins_query_failure_gives_empty_list Q
           "census_2016_data.ste_g01" "census_2016_web.ste" "g3" 7 80 "values"
           failing_cursor settings_2016 (DatabaseError "relation does not exist")).
  vm_compute. reflexivity.
Defined.

Lemma equal_interval_no_rows_raises_witness :
  run (get_equal_interval_bins "census_2016_data.ste_g01" "census_2016_web.ste"
         "g3" 7 "values" empty_cursor settings_2016) =
  ([], Raise (TypeError
                "unsupported operand type(s) for -: 'NoneType' and 'NoneType'")).
Proof.
  eapply (equal_interval_no_rows_raises Q exact_num
            "census_2016_data.ste_g01" "census_2016_web.ste" "g3" 7 "values"
            empty_cursor settings_2016).
  - vm_compute. reflexivity.
  - reflexivity.
Defined.



Lemma get_settings_by_census_year_witness :
  census_year default_args = "2016" /\
  exists settings : gmap string pyval,
    get_settings ∅ "/srv/census-loader/web" default_args = Ok (Some settings) /\
    settings !! "region_id_field" = Some (VStr "aus_code_2016") /\
    settings !! "bdy_table_dicts" = Some (VDictList bdy_table_dicts_2016).
Proof.
  split; [ reflexivity | ].
  destruct (proj1 (proj2 (get_settings_by_census_year ∅ "/srv/census-loader/web"
                            default_args)) eq_refl)
    as (settings & Hget & Hrid & _ & _ & _ & Hbdy & _).
  exists settings. split; [ exact Hget | ]. split; [ exact Hrid | exact Hbdy ].
Defined.

(* ================================================================= *)
(** * Further properties *)

(** ** [get_boundary]: thresholds along the zoom levels *)

(** X1.  The minimum display value never increases when the zoom level
    grows, it always lies between 3 and 80, and two zoom levels with the
    same minimum display value get the same boundary. *)
Theorem get_boundary_threshold_monotone (z1 z2 : Z) :
  z1 <= z2 ->
  snd (get_boundary z2) <= snd (get_boundary z1) /\
  3 <= snd (get_boundary z2) /\ snd (get_boundary z1) <= 80 /\
  (snd (get_boundary z1) = snd (get_boundary z2) ->
   get_boundary z1 = get_boundary z2).
Proof.
  intros Hle. unfold get_boundary.
  destruct (Z.ltb_spec z1 7), (Z.ltb_spec z1 9), (Z.ltb_spec z1 11),
    (Z.ltb_spec z1 14), (Z.ltb_spec z1 17); try lia;
  destruct (Z.ltb_spec z2 7), (Z.ltb_spec z2 9), (Z.ltb_spec z2 11),
    (Z.ltb_spec z2 14), (Z.ltb_spec z2 17); try lia;
  cbn [snd]; (split; [ lia | split; [ lia | split; [ lia | ] ] ]);
  intros Heq; (reflexivity || discriminate Heq).
Qed.

Lemma get_boundary_threshold_monotone_witness :
  8 <= 15 /\ snd (get_boundary 15) <= snd (get_boundary 8).
Proof.
  split; [ lia | ].
  apply (proj1 (get_boundary_threshold_monotone 8 15 ltac:(lia))).
Defined.

(** ** Class breaks: failures and results *)

(** X2.  [get_equal_interval_bins] guards its query as the other two
    functions do: when the guarded block raises, the failure line is printed
    and the empty list is returned. *)
Theorem equal_interval_query_failure_gives_empty_list
    (F : Type) (HF : PyNum F) (data_table boundary_table stat_field : string)
    (num_classes : Z) (map_type : string)
    (pg_cur : string -> result (min_max_row F))
    (settings : gmap string pyval) (ex : pyexn) :
  (q <- equal_interval_sql_string data_table boundary_table stat_field map_type
          settings ;; pg_cur q) = Raise ex ->
  run (get_equal_interval_bins data_table boundary_table stat_field num_classes
         map_type pg_cur settings) =
  ([Printed (failed_line data_table stat_field ex)], Ok []).
Proof.
  intros Hraise.
  unfold run, get_equal_interval_bins, try_except, mbind, lift, ret.
  destruct (equal_interval_sql_string data_table boundary_table stat_field
              map_type settings) as [q | e]; cbn [rbind] in Hraise; cbv beta iota.
  - rewrite Hraise. cbv beta iota. rewrite print_failed_output. reflexivity.
  - injection Hraise as ->. rewrite print_failed_output. reflexivity.
Qed.

Lemma equal_interval_query_failure_gives_empty_list_witness :
  run (get_equal_interval_bins "census_2016_data.ste_g01" "census_2016_web.ste"
         "g3" 7 "values"
         (fun _ : string => Raise (DatabaseError "relation does not exist")
            : result (min_max_row Q))
         settings_2016) =
  ([Printed "census_2016_data.ste_g01 - g3 Failed: relation does not exist"], Ok []).
Proof.
  apply (equal_interval_query_failure_gives_empty_list Q exact_num
           "census_2016_data.ste_g01" "census_2016_web.ste" "g3" 7 "values"
           (fun _ => Raise (DatabaseError "relation does not exist"))
           settings_2016 (DatabaseError "relation does not exist")).
  vm_compute. reflexivity.
Defined.






(** ** [split_sql_into_list]: failures and the size of the plan *)

Lemma empty_table_message_ok (min_max_sql err : string) :
  PyStr.format
    ("Looks like the table in this query is empty: {0}" ++ newline ++ "{1}")
    [min_max_sql; err] =
  Ok ("Looks like the table in this query is empty: " ++ min_max_sql ++
      newline ++ err).
Proof.
  transitivity
    (Ok ("Looks like the table in this query is empty: " ++ min_max_sql ++
         newline ++ err ++ "")).
  - vm_compute. reflexivity.
  - rewrite append_empty_r. reflexivity.
Qed.

(** What the handler of [split_sql_into_list] does with an exception. *)
Lemma split_sql_handler (min_max_sql : string) (ex : pyexn) (o : list out) :
  (msg <~ lift (PyStr.format
             ("Looks like the table in this query is empty: {0}" ++ newline ++ "{1}")
             [min_max_sql; exn_str ex]) ;;
   _ <~ emit (LogFatal msg) ;;
   ret (None : option (list string))) o =
  ((o ++ [empty_table_record min_max_sql ex])%list, Ok None).
Proof.
  unfold mbind, lift, emit, ret. rewrite empty_table_message_ok. reflexivity.
Qed.

(** X5.  On an empty table (the fetched minimum is [None])
    [split_sql_into_list] builds no statement: it returns [None] and logs one
    fatal record that holds the MIN/MAX query and the error. *)
Theorem split_sql_empty_table_returns_none
    (pg_cur : string -> result (option Z * option Z))
    (the_sql table_schema table_name table_alias table_gid : string)
    (settings : gmap string pyval) (max_pkey : option Z) :
  pg_cur (min_max_query table_schema table_name table_gid) = Ok (None, max_pkey) ->
  run (split_sql_into_list pg_cur the_sql table_schema table_name table_alias
         table_gid settings) =
  ([empty_table_record (min_max_query table_schema table_name table_gid)
      (TypeError "int() argument must be a string, a bytes-like object or a real number, not 'NoneType'")],
   Ok None).
Proof.
  intros Hcur. unfold run, split_sql_into_list.
  unfold mbind at 1. unfold lift at 1. rewrite min_max_sql_ok.
  fold (min_max_query table_schema table_name table_gid).
  unfold mbind at 1. unfold lift at 1. rewrite Hcur.
  unfold try_except.
  unfold mbind at 1. unfold lift at 1. cbn [fst py_int]. cbv beta iota.
  exact (split_sql_handler _ _ []).
Qed.

Lemma split_sql_empty_table_returns_none_witness :
  run (split_sql_into_list (fun _ => Ok (None, None))
         "INSERT INTO census_2016_web.mb SELECT * FROM census_2016_bdys.mb AS tab;"
         "census_2016_bdys" "mb" "tab" "gid" settings_3_processes) =
  ([empty_table_record "SELECT MIN(gid) AS min, MAX(gid) AS max FROM census_2016_bdys.mb"
      (TypeError "int() argument must be a string, a bytes-like object or a real number, not 'NoneType'")],
   Ok None).
Proof.
  apply (split_sql_empty_table_returns_none (fun _ => Ok (None, None))
           "INSERT INTO census_2016_web.mb SELECT * FROM census_2016_bdys.mb AS tab;"
           "census_2016_bdys" "mb" "tab" "gid" settings_3_processes None).
  reflexivity.
Defined.

(** X6.  Failures that are not an empty table.  A process setting of zero,
    or a settings dictionary without the process setting, ends in the same
    handler: [None] is returned and the fatal record says the table looks
    empty, with the error ([float division by zero], or the missing key) at
    its end.  An error of the MIN/MAX query itself is raised to the caller:
    [execute] stands before the [try]. *)
Theorem split_sql_other_failures
    (pg_cur : string -> result (option Z * option Z))
    (the_sql table_schema table_name table_alias table_gid : string)
    (settings : gmap string pyval) :
  (forall min_pkey max_pkey : Z,
      pg_cur (min_max_query table_schema table_name table_gid) =
        Ok (Some min_pkey, Some max_pkey) ->
      settings !! "max_concurrent_processes" = Some (VInt 0) ->
      run (split_sql_into_list pg_cur the_sql table_schema table_name table_alias
             table_gid settings) =
      ([empty_table_record (min_max_query table_schema table_name table_gid)
          (ZeroDivisionError "float division by zero")], Ok None)) /\
  (forall min_pkey max_pkey : Z,
      pg_cur (min_max_query table_schema table_name table_gid) =
        Ok (Some min_pkey, Some max_pkey) ->
      settings !! "max_concurrent_processes" = None ->
      run (split_sql_into_list pg_cur the_sql table_schema table_name table_alias
             table_gid settings) =
      ([empty_table_record (min_max_query table_schema table_name table_gid)
          (KeyError "max_concurrent_processes")], Ok None)) /\
  (forall ex : pyexn,
      pg_cur (min_max_query table_schema table_name table_gid) = Raise ex ->
      run (split_sql_into_list pg_cur the_sql table_schema table_name table_alias
             table_gid settings) = ([], Raise ex)).
Proof.
  split; [ | split ].
  - intros mn mx Hcur Hset. unfold run, split_sql_into_list.
    unfold mbind at 1. unfold lift at 1. rewrite min_max_sql_ok.
    fold (min_max_query table_schema table_name table_gid).
    unfold mbind at 1. unfold lift at 1. rewrite Hcur.
    unfold try_except.
    unfold mbind at 1. unfold lift at 1. cbn [fst snd py_int].
    unfold mbind at 1. unfold lift at 1.
    unfold mbind at 1. unfold lift at 1. unfold lookup_int. rewrite Hset.
    unfold mbind at 1. unfold lift at 1.
    unfold partition_plan, float_div. cbn [ndiv exact_num of_int rbind].
    change (Qeq_bool (inject_Z 0) 0) with true. cbv beta iota.
    exact (split_sql_handler _ _ []).
  - intros mn mx Hcur Hset. unfold run, split_sql_into_list.
    unfold mbind at 1. unfold lift at 1. rewrite min_max_sql_ok.
    fold (min_max_query table_schema table_name table_gid).
    unfold mbind at 1. unfold lift at 1. rewrite Hcur.
    unfold try_except.
    unfold mbind at 1. unfold lift at 1. cbn [fst snd py_int].
    unfold mbind at 1. unfold lift at 1.
    unfold mbind at 1. unfold lift at 1. unfold lookup_int. rewrite Hset.
    cbv beta iota. exact (split_sql_handler _ _ []).
  - intros ex Hcur. unfold run, split_sql_into_list.
    unfold mbind at 1. unfold lift at 1. rewrite min_max_sql_ok.
    fold (min_max_query table_schema table_name table_gid).
    unfold mbind at 1. unfold lift at 1. rewrite Hcur. reflexivity.
Qed.

Lemma split_sql_other_failures_witness :
  run (split_sql_into_list cursor_1_100
         "INSERT INTO census_2016_web.mb SELECT * FROM census_2016_bdys.mb AS tab;"
         "census_2016_bdys" "mb" "tab" "gid"
         {[ "max_concurrent_processes" := VInt 0 ]}) =
  ([empty_table_record "SELECT MIN(gid) AS min, MAX(gid) AS max FROM census_2016_bdys.mb"
      (ZeroDivisionError "float division by zero")], Ok None).
Proof.
  apply (proj1 (split_sql_other_failures cursor_1_100
                  "INSERT INTO census_2016_web.mb SELECT * FROM census_2016_bdys.mb AS tab;"
                  "census_2016_bdys" "mb" "tab" "gid"
                  {[ "max_concurrent_processes" := VInt 0 ]}) 1 100).
  - reflexivity.
  - reflexivity.
Defined.

(** [inject_where] logs nothing, or the one warning. *)
Lemma inject_where_output_kind (the_sql where_clause : string) (o : list out) :
  exists (w : list out) (mp_sql : string),
    inject_where the_sql where_clause o = ((o ++ w)%list, Ok mp_sql) /\
    inject_where the_sql where_clause [] = (w, Ok mp_sql) /\
    Forall (eq no_terminator_record) w.
Proof.
  unfold inject_where.
  destruct (PyStr.contains "WHERE " the_sql);
    [ eexists [], _; unfold ret; rewrite app_nil_r;
      split; [ reflexivity | split; [ reflexivity | constructor ] ] | ].
  destruct (PyStr.contains "GROUP BY " the_sql);
    [ eexists [], _; unfold ret; rewrite app_nil_r;
      split; [ reflexivity | split; [ reflexivity | constructor ] ] | ].
  destruct (PyStr.contains "ORDER BY " the_sql);
    [ eexists [], _; unfold ret; rewrite app_nil_r;
      split; [ reflexivity | split; [ reflexivity | constructor ] ] | ].
  destruct (PyStr.contains ";" the_sql);
    [ eexists [], _; unfold ret; rewrite app_nil_r;
      split; [ reflexivity | split; [ reflexivity | constructor ] ] | ].
  eexists [no_terminator_record], _. unfold mbind, emit, ret.
  split; [ reflexivity | split; [ reflexivity | ] ].
  constructor; [ reflexivity | constructor ].
Qed.

(** The loop with its log: only the warning can be added. *)
Lemma split_loop_ranges_log (n : nat) (the_sql table_alias table_gid : string)
    (rows_per_request start_pkey : Z) (sql_list : list string) (o : list out) :
  exists (ws : list out) (sqls : list string),
    split_loop n the_sql table_alias table_gid rows_per_request start_pkey
      sql_list o = ((o ++ ws)%list, Ok (sql_list ++ sqls)%list) /\
    Forall2 (statement_of_range the_sql table_alias table_gid)
      (key_ranges n rows_per_request start_pkey) sqls /\
    Forall (eq no_terminator_record) ws.
Proof.
  revert start_pkey sql_list o.
  induction n as [ | k IH ]; intros s acc o.
  - exists [], []. simpl. unfold ret. rewrite !app_nil_r.
    split; [ reflexivity | split; constructor ].
  - cbn [split_loop key_ranges]. unfold mbind at 1. unfold lift.
    rewrite where_clause_of_ok. unfold mbind at 1.
    destruct (inject_where_output_kind the_sql
                (" WHERE " ++ table_alias ++ "." ++ table_gid ++ " > " ++
                 PyStr.str_of_Z s ++ " AND " ++ table_alias ++ "." ++
                 table_gid ++ " <= " ++ PyStr.str_of_Z (s + rows_per_request)) o)
      as (w & mp_sql & Ho & Hnil & Hw).
    rewrite Ho.
    destruct (IH (s + rows_per_request) (acc ++ [mp_sql])%list (o ++ w)%list)
      as (ws & sqls & Hloop & Hall & Hws).
    exists (w ++ ws)%list, (mp_sql :: sqls). split; [ | split ].
    + rewrite Hloop. rewrite <- !app_assoc. reflexivity.
    + constructor; [ | exact Hall ].
      eexists _, w. split; [ apply where_clause_of_ok | exact Hnil ].
    + apply Forall_app. split; assumption.
Qed.

(** The run of [split_sql_into_list] on a table with keys and a non-zero
    process setting: the plan, the log and the statements. *)
Lemma split_sql_into_list_run
    (pg_cur : string -> result (option Z * option Z))
    (the_sql table_schema table_name table_alias table_gid : string)
    (settings : gmap string pyval) (min_pkey max_pkey mcp : Z) :
  mcp <> 0 ->
  settings !! "max_concurrent_processes" = Some (VInt mcp) ->
  pg_cur (min_max_query table_schema table_name table_gid) =
    Ok (Some min_pkey, Some max_pkey) ->
  exists (rows_per_request processes : Z) (adjusted : bool)
         (ws : list out) (sqls : list string),
    partition_plan (max_pkey - min_pkey) mcp =
      Ok (rows_per_request, processes, adjusted) /\
    run (split_sql_into_list pg_cur the_sql table_schema table_name table_alias
           table_gid settings) =
      (((if adjusted then [adjusted_record processes] else []) ++ ws)%list,
       Ok (Some sqls)) /\
    Forall2 (statement_of_range the_sql table_alias table_gid)
      (key_ranges (Z.to_nat processes) rows_per_request (min_pkey - 1)) sqls /\
    Forall (eq no_terminator_record) ws.
Proof.
  intros Hmcp Hset Hcur.
  destruct (partition_plan_spec (max_pkey - min_pkey) mcp Hmcp)
    as (rpr & procs & adj & Hplan & _ & _).
  destruct (split_loop_ranges_log (Z.to_nat procs) the_sql table_alias table_gid
              rpr (min_pkey - 1) []
              (if adj then [adjusted_record procs] else []))
    as (ws & sqls & Hloop & Hall & Hws).
  exists rpr, procs, adj, ws, sqls.
  split; [ exact Hplan | ]. split; [ | split; assumption ].
  unfold run, split_sql_into_list.
  unfold mbind at 1. unfold lift at 1. rewrite min_max_sql_ok.
  fold (min_max_query table_schema table_name table_gid).
  unfold mbind at 1. unfold lift at 1. rewrite Hcur.
  unfold try_except.
  unfold mbind at 1. unfold lift at 1. cbn [fst snd py_int].
  unfold mbind at 1. unfold lift at 1.
  unfold mbind at 1. unfold lift at 1. unfold lookup_int. rewrite Hset.
  unfold mbind at 1. unfold lift at 1. rewrite Hplan.
  cbv beta iota.
  destruct adj.
  - unfold mbind at 1. unfold mbind at 1. unfold lift at 1.
    rewrite adjusted_message_ok. unfold emit. cbn [app].
    unfold mbind at 1. fold (adjusted_record procs). rewrite Hloop. reflexivity.
  - unfold mbind at 1. unfold ret at 1.
    unfold mbind at 1. rewrite Hloop. reflexivity.
Qed.

Lemma quotient_below_ten (diff mcp : Z) :
  0 < mcp -> (inject_Z diff / inject_Z mcp < 10)%Q -> diff < 10 * mcp.
Proof.
  intros Hpos Hlt. destruct mcp as [ | p | p ]; try lia.
  unfold Qlt, Qdiv, Qmult, Qinv, inject_Z in Hlt. simpl in Hlt. lia.
Qed.

(** X7.  With keys from [min_pkey] up to [max_pkey] and a positive process
    setting, [split_sql_into_list] returns at least one statement and never
    more statements than the process setting; the adjustment record is
    logged exactly when the quotient of key span and processes is below 10,
    and otherwise there are as many statements as processes. *)
Theorem split_sql_statement_count
    (pg_cur : string -> result (option Z * option Z))
    (the_sql table_schema table_name table_alias table_gid : string)
    (settings : gmap string pyval) (min_pkey max_pkey mcp : Z) :
  min_pkey <= max_pkey ->
  0 < mcp ->
  settings !! "max_concurrent_processes" = Some (VInt mcp) ->
  pg_cur (min_max_query table_schema table_name table_gid) =
    Ok (Some min_pkey, Some max_pkey) ->
  exists (log : list out) (sqls : list string),
    run (split_sql_into_list pg_cur the_sql table_schema table_name table_alias
           table_gid settings) = (log, Ok (Some sqls)) /\
    1 <= Z.of_nat (List.length sqls) <= mcp /\
    ((inject_Z (max_pkey - min_pkey) / inject_Z mcp < 10)%Q <->
     In (adjusted_record (Z.of_nat (List.length sqls))) log) /\
    (~ (inject_Z (max_pkey - min_pkey) / inject_Z mcp < 10)%Q ->
     Z.of_nat (List.length sqls) = mcp).
Proof.
  intros Hle Hpos Hset Hcur.
  assert (Hmcp : mcp <> 0) by lia.
  destruct (split_sql_into_list_run pg_cur the_sql table_schema table_name
              table_alias table_gid settings min_pkey max_pkey mcp Hmcp Hset Hcur)
    as (rpr & procs & adj & ws & sqls & Hplan & Hrun & Hall & Hws).
  destruct (partition_plan_spec (max_pkey - min_pkey) mcp Hmcp)
    as (rpr' & procs' & adj' & Hplan' & Hadj & Hunadj).
  rewrite Hplan in Hplan'. injection Hplan' as <- <- <-.
  assert (Hlen : List.length sqls = Z.to_nat procs).
  { rewrite <- (Forall2_length _ _ _ Hall). apply key_ranges_length. }
  assert (Hnolog : ~ In (adjusted_record (Z.of_nat (List.length sqls))) ws).
  { intros Hin. rewrite Forall_forall in Hws.
    apply list_elem_of_In in Hin.
    specialize (Hws _ Hin). discriminate Hws. }
  exists (((if adj then [adjusted_record procs] else []) ++ ws)%list), sqls.
  split; [ exact Hrun | ].
  destruct (Qlt_le_dec (inject_Z (max_pkey - min_pkey) / inject_Z mcp) 10)
    as [Hlt | Hge].
  - destruct (Hadj Hlt) as (-> & -> & ->).
    pose proof (quotient_below_ten _ _ Hpos Hlt) as Hz.
    pose proof (Z.div_pos (max_pkey - min_pkey) 10 ltac:(lia) ltac:(lia)) as Hq.
    pose proof (Z.div_lt_upper_bound (max_pkey - min_pkey) 10 mcp
                  ltac:(lia) Hz) as Hub.
    rewrite Hlen. rewrite Z2Nat.id by lia.
    split; [ lia | ]. split.
    + split; [ intros _; left; reflexivity | intros _; exact Hlt ].
    + intros Hn. contradiction.
  - apply Qle_not_lt in Hge. destruct (Hunadj Hge) as (-> & -> & ->).
    rewrite Hlen. rewrite Z2Nat.id by lia.
    split; [ lia | ]. split.
    + split; [ intros Hlt; contradiction | ].
      cbn [app]. intros Hin. exfalso. apply Hnolog.
      rewrite Hlen. rewrite Z2Nat.id by lia. exact Hin.
    + intros _. reflexivity.
Qed.

Lemma split_sql_statement_count_witness :
  1 <= 100 /\ 0 < 3 /\
  exists (log : list out) (sqls : list string),
    run (split_sql_into_list cursor_1_100
           "INSERT INTO census_2016_web.mb SELECT * FROM census_2016_bdys.mb AS tab;"
           "census_2016_bdys" "mb" "tab" "gid" settings_3_processes) =
      (log, Ok (Some sqls)) /\
    1 <= Z.of_nat (List.length sqls) <= 3.
Proof.
  split; [ lia | ]. split; [ lia | ].
  destruct (split_sql_statement_count cursor_1_100
              "INSERT INTO census_2016_web.mb SELECT * FROM census_2016_bdys.mb AS tab;"
              "census_2016_bdys" "mb" "tab" "gid" settings_3_processes 1 100 3
              ltac:(lia) ltac:(lia) eq_refl eq_refl)
    as (log & sqls & Hrun & Hcount & _).
  exists log, sqls. split; [ exact Hrun | exact Hcount ].
Defined.

(** X8.  A template in which [WHERE] is not preceded by a space (it follows
    a line break, say) passes the first test of the rewriting but has no
    [" WHERE "] to replace: every statement [split_sql_into_list] returns is
    the template itself, without any range predicate. *)
Theorem split_sql_unspaced_where_is_not_partitioned
    (pg_cur : string -> result (option Z * option Z))
    (the_sql table_schema table_name table_alias table_gid : string)
    (settings : gmap string pyval) (min_pkey max_pkey mcp : Z) :
  PyStr.contains "WHERE " the_sql = true ->
  PyStr.contains " WHERE " the_sql = false ->
  mcp <> 0 ->
  settings !! "max_concurrent_processes" = Some (VInt mcp) ->
  pg_cur (min_max_query table_schema table_name table_gid) =
    Ok (Some min_pkey, Some max_pkey) ->
  exists (log : list out) (sqls : list string),
    run (split_sql_into_list pg_cur the_sql table_schema table_name table_alias
           table_gid settings) = (log, Ok (Some sqls)) /\
    Forall (eq the_sql) sqls.
Proof.
  intros Hw Hsp Hmcp Hset Hcur.
  destruct (split_sql_into_list_run pg_cur the_sql table_schema table_name
              table_alias table_gid settings min_pkey max_pkey mcp Hmcp Hset Hcur)
    as (rpr & procs & adj & ws & sqls & _ & Hrun & Hall & _).
  eexists _, sqls. split; [ exact Hrun | ].
  clear Hrun. induction Hall as [ | range mp_sql ranges sqls Hone _ IH ].
  - constructor.
  - constructor; [ | exact IH ].
    destruct Hone as (wc & w & _ & Hinj).
    pose proof (inject_where_unspaced_keyword the_sql wc Hw Hsp) as Hsame.
    unfold run in Hsame. rewrite Hinj in Hsame. injection Hsame as _ <-.
    reflexivity.
Qed.

Lemma split_sql_unspaced_where_is_not_partitioned_witness :
  exists (log : list out) (sqls : list string),
    run (split_sql_into_list cursor_1_100
           ("SELECT gid FROM census_2016_bdys.mb AS tab" ++ newline ++
            "WHERE tab.state = 1;")
           "census_2016_bdys" "mb" "tab" "gid" settings_3_processes) =
      (log, Ok (Some sqls)) /\
    Forall (eq ("SELECT gid FROM census_2016_bdys.mb AS tab" ++ newline ++
                "WHERE tab.state = 1;")) sqls.
Proof.
  apply (split_sql_unspaced_where_is_not_partitioned cursor_1_100
           ("SELECT gid FROM census_2016_bdys.mb AS tab" ++ newline ++
            "WHERE tab.state = 1;")
           "census_2016_bdys" "mb" "tab" "gid" settings_3_processes 1 100 3).
  - vm_compute. reflexivity.
  - vm_compute. reflexivity.
  - discriminate.
  - reflexivity.
  - reflexivity.
Defined.

(** ** The queries of the class-break functions *)

Lemma uint_string_plain (d : Decimal.uint) :
  PyStr.contains "%" (NilEmpty.string_of_uint d) = false.
Proof. induction d as [ | d IH | d IH | d IH | d IH | d IH | d IH | d IH
                        | d IH | d IH | d IH ]; simpl; try exact IH; reflexivity. Qed.

(** The decimal text of an integer holds no percent sign. *)
Lemma str_of_Z_plain (n : Z) : PyStr.contains "%" (PyStr.str_of_Z n) = false.
Proof.
  unfold PyStr.str_of_Z, NilZero.string_of_int, NilZero.string_of_uint.
  destruct (Z.to_int n) as [d | d]; destruct d; simpl;
    try reflexivity; apply uint_string_plain.
Qed.

Lemma plain_app (s1 s2 : string) :
  PyStr.contains "%" s1 = false -> PyStr.contains "%" s2 = false ->
  PyStr.contains "%" (s1 ++ s2) = false.
Proof.
  intros H1 H2. induction s1 as [ | c s1 IH ]; [ exact H2 | ].
  apply contains_cons_false in H1. destruct H1 as [Hp Hc].
  change (String c s1 ++ s2) with (String c (s1 ++ s2)).
  cbn [PyStr.contains]. rewrite (IH Hc), orb_false_r.
  cbn [String.prefix] in Hp |- *.
  destruct (ascii_dec "%" c); [ | reflexivity ].
  destruct s1; discriminate Hp.
Qed.

Lemma str_of_float_of_Z_plain (n : Z) :
  PyStr.contains "%" (str_of_float_of_Z n) = false.
Proof.
  unfold str_of_float_of_Z. apply plain_app; [ apply str_of_Z_plain | reflexivity ].
Qed.

Lemma kmeans_values_formatted (region_id_field min_val : string) :
  PyStr.format kmeans_values_sql [region_id_field; min_val] =
  Ok ("WITH sub AS (WITH points AS (SELECT " ++ "%s" ++
      " as val, ST_MakePoint(" ++ "%s" ++ ", 0) AS pnt FROM " ++ "%s" ++
      " AS tab INNER JOIN " ++ "%s" ++ " AS bdy ON tab." ++ region_id_field ++
      " = bdy.id WHERE " ++ "%s" ++ " > 0.0 AND bdy.population > " ++ min_val ++
      ") SELECT val, ST_ClusterKMeans(pnt, " ++ "%s" ++
      ") OVER () AS cluster_id FROM points) SELECT MAX(val) AS val FROM sub GROUP BY cluster_id ORDER BY val" ++ "").
Proof. vm_compute. reflexivity. Qed.

Lemma kmeans_percent_formatted (region_id_field min_val : string) :
  PyStr.format kmeans_percent_sql [region_id_field; min_val] =
  Ok ("WITH sub AS (WITH points AS (SELECT " ++ "%s" ++
      " as val, ST_MakePoint(" ++ "%s" ++ ", 0) AS pnt FROM " ++ "%s" ++
      " AS tab INNER JOIN " ++ "%s" ++ " AS bdy ON tab." ++ region_id_field ++
      " = bdy.id WHERE " ++ "%s" ++ " > 0.0 AND " ++ "%s" ++
      " < 100.0 AND bdy.population > " ++ min_val ++
      ") SELECT val, ST_ClusterKMeans(pnt, " ++ "%s" ++
      ") OVER () AS cluster_id FROM points) SELECT MAX(val) AS val FROM sub GROUP BY cluster_id ORDER BY val" ++ "").
Proof. vm_compute. reflexivity. Qed.

Lemma equal_interval_values_formatted (region_id_field : string) :
  PyStr.format equal_interval_values_sql [region_id_field] =
  Ok ("SELECT MIN(" ++ "%s" ++ ") AS min, MAX(" ++ "%s" ++ ") AS max FROM " ++
      "%s" ++ " AS tab INNER JOIN " ++ "%s" ++ " AS bdy ON tab." ++
      region_id_field ++ " = bdy.id WHERE " ++ "%s" ++
      " > 0 AND bdy.population > 5" ++ "").
Proof. vm_compute. reflexivity. Qed.

Lemma equal_interval_percent_formatted (region_id_field : string) :
  PyStr.format equal_interval_percent_sql [region_id_field] =
  Ok ("SELECT MIN(" ++ "%s" ++ ") AS min, MAX(" ++ "%s" ++ ") AS max FROM " ++
      "%s" ++ " AS tab INNER JOIN " ++ "%s" ++ " AS bdy ON tab." ++
      region_id_field ++ " = bdy.id WHERE " ++ "%s" ++ " > 0 AND " ++ "%s" ++
      " < 100.0 AND bdy.population > 5" ++ "").
Proof. vm_compute. reflexivity. Qed.

(** X9.  The K-means query in closed form, for a region identifier field
    without percent sign: both map types pass [num_classes] to
    [ST_ClusterKMeans] and filter the boundaries on a population above
    [min_val], written as a float; the branch other than ["values"] adds the
    upper bound 100 on the statistic. *)
Theorem kmeans_query_closed_form
    (data_table boundary_table stat_field : string) (num_classes min_val : Z)
    (map_type : string) (settings : gmap string pyval) (region_id_field : string) :
  settings !! "region_id_field" = Some (VStr region_id_field) ->
  PyStr.contains "%" region_id_field = false ->
  kmeans_sql_string data_table boundary_table stat_field num_classes min_val
    map_type settings =
  Ok ("WITH sub AS (WITH points AS (SELECT " ++ stat_field ++
      " as val, ST_MakePoint(" ++ stat_field ++ ", 0) AS pnt FROM " ++
      data_table ++ " AS tab INNER JOIN " ++ boundary_table ++
      " AS bdy ON tab." ++ region_id_field ++ " = bdy.id WHERE " ++
      stat_field ++ " > 0.0 AND " ++
      (if String.eqb map_type "values" then ""
       else stat_field ++ " < 100.0 AND ") ++
      "bdy.population > " ++ PyStr.str_of_Z min_val ++ ".0" ++
      ") SELECT val, ST_ClusterKMeans(pnt, " ++ PyStr.str_of_Z num_classes ++
      ") OVER () AS cluster_id FROM points) SELECT MAX(val) AS val FROM sub GROUP BY cluster_id ORDER BY val").
Proof.
  intros Hrid Hplain.
  pose proof (str_of_float_of_Z_plain min_val) as Hmv.
  unfold kmeans_sql_string, lookup_str. rewrite Hrid.
  destruct (String.eqb map_type "values"); cbn [rbind].
  - rewrite kmeans_values_formatted. cbn [rbind].
    mogrify_pieces. unfold str_of_float_of_Z.
    rewrite !append_assoc. reflexivity.
  - rewrite kmeans_percent_formatted. cbn [rbind].
    mogrify_pieces. unfold str_of_float_of_Z.
    rewrite !append_assoc. reflexivity.
Qed.

Lemma kmeans_query_closed_form_witness :
  kmeans_sql_string "census_2016_data.ste_g01" "census_2016_web.ste" "g3" 7 80
    "percent" settings_2016 =
  Ok "WITH sub AS (WITH points AS (SELECT g3 as val, ST_MakePoint(g3, 0) AS pnt FROM census_2016_data.ste_g01 AS tab INNER JOIN census_2016_web.ste AS bdy ON tab.aus_code_2016 = bdy.id WHERE g3 > 0.0 AND g3 < 100.0 AND bdy.population > 80.0) SELECT val, ST_ClusterKMeans(pnt, 7) OVER () AS cluster_id FROM points) SELECT MAX(val) AS val FROM sub GROUP BY cluster_id ORDER BY val".
Proof.
  apply (kmeans_query_closed_form "census_2016_data.ste_g01" "census_2016_web.ste"
           "g3" 7 80 "percent" settings_2016 "aus_code_2016").
  - reflexivity.
  - reflexivity.
Defined.

(** ** [get_settings] and what is built on its dictionary *)

(** What a returned dictionary holds, whatever the census year. *)
Lemma get_settings_returned_match (env : gmap string string) (script_dir : string)
    (a : args) :
  match get_settings env script_dir a with
  | Ok (Some settings) =>
      (census_year a = "2016" /\
       settings !! "region_id_field" = Some (VStr "aus_code_2016") \/
       census_year a = "2011" /\
       settings !! "region_id_field" = Some (VStr "region_id")) /\
      settings !! "max_concurrent_processes" = Some (VInt (max_processes a)) /\
      settings !! "pg_host" =
        Some (VStr (str_or (pghost a) (getenv env "PGHOST" "localhost"))) /\
      settings !! "pg_db" =
        Some (VStr (str_or (pgdb a) (getenv env "POSTGRES_USER" "geo"))) /\
      settings !! "pg_user" =
        Some (VStr (str_or (pguser a) (getenv env "POSTGRES_USER" "postgres"))) /\
      settings !! "data_schema" = Some (VStr (data_schema a)) /\
      settings !! "boundary_schema" = Some (VStr (boundary_schema a)) /\
      settings !! "web_schema" = Some (VStr (web_schema a)) /\
      settings !! "census_year" = Some (VStr (census_year a)) /\
      settings !! "data_directory" =
        Some (VStr (PyStr.replace backslash "/" (str_or (census_data_path a) ""))) /\
      settings !! "boundaries_local_directory" =
        Some (VStr (PyStr.replace backslash "/" (str_or (census_bdys_path a) "")))
  | _ => True
  end.
Proof.
  unfold get_settings. cbv zeta. rewrite connect_string_ok. cbn [rbind].
  destruct (String.eqb_spec (census_year a) "2016") as [H16 | _].
  - split; [ left; split; [ exact H16 | lookup_settings ] | ].
    repeat (split; [ lookup_settings | ]). lookup_settings.
  - destruct (String.eqb_spec (census_year a) "2011") as [H11 | _]; [ | exact I ].
    split; [ right; split; [ exact H11 | lookup_settings ] | ].
    repeat (split; [ lookup_settings | ]). lookup_settings.
Qed.

Lemma get_settings_returned (env : gmap string string) (script_dir : string)
    (a : args) (settings : gmap string pyval) :
  get_settings env script_dir a = Ok (Some settings) ->
  (census_year a = "2016" /\
   settings !! "region_id_field" = Some (VStr "aus_code_2016") \/
   census_year a = "2011" /\
   settings !! "region_id_field" = Some (VStr "region_id")) /\
  settings !! "max_concurrent_processes" = Some (VInt (max_processes a)) /\
  settings !! "pg_host" =
    Some (VStr (str_or (pghost a) (getenv env "PGHOST" "localhost"))) /\
  settings !! "pg_db" =
    Some (VStr (str_or (pgdb a) (getenv env "POSTGRES_USER" "geo"))) /\
  settings !! "pg_user" =
    Some (VStr (str_or (pguser a) (getenv env "POSTGRES_USER" "postgres"))) /\
  settings !! "data_schema" = Some (VStr (data_schema a)) /\
  settings !! "boundary_schema" = Some (VStr (boundary_schema a)) /\
  settings !! "web_schema" = Some (VStr (web_schema a)) /\
  settings !! "census_year" = Some (VStr (census_year a)) /\
  settings !! "data_directory" =
    Some (VStr (PyStr.replace backslash "/" (str_or (census_data_path a) ""))) /\
  settings !! "boundaries_local_directory" =
    Some (VStr (PyStr.replace backslash "/" (str_or (census_bdys_path a) ""))).
Proof.
  intros H. pose proof (get_settings_returned_match env script_dir a) as L.
  rewrite H in L. exact L.
Qed.

(** [get_settings] returns a dictionary for the two census years. *)
Lemma get_settings_returns (env : gmap string string) (script_dir : string)
    (a : args) :
  census_year a = "2016" \/ census_year a = "2011" ->
  exists settings : gmap string pyval,
    get_settings env script_dir a = Ok (Some settings).
Proof.
  intros Hyear. unfold get_settings. cbv zeta.
  rewrite connect_string_ok. cbn [rbind].
  destruct Hyear as [-> | ->];
    cbn [String.eqb Ascii.eqb Bool.eqb andb]; eexists; reflexivity.
Qed.

(** X10.  The dictionary [get_settings] returns is enough for every
    class-break query: whatever the tables, the statistic, the class count
    and the map type, the three query builders return a query (no missing
    key, no formatting error), and the process setting
    [split_sql_into_list] reads is the [--max-processes] value. *)
Theorem get_settings_supports_the_queries (env : gmap string string)
    (script_dir : string) (a : args) (settings : gmap string pyval)
    (data_table boundary_table stat_field : string) (num_classes min_val : Z)
    (map_type : string) :
  get_settings env script_dir a = Ok (Some settings) ->
  (exists q, kmeans_sql_string data_table boundary_table stat_field num_classes
               min_val map_type settings = Ok q) /\
  (exists q, equal_interval_sql_string data_table boundary_table stat_field
               map_type settings = Ok q) /\
  (exists q, equal_count_sql_string data_table boundary_table stat_field
               num_classes map_type settings = Ok q) /\
  lookup_int "max_concurrent_processes" settings = Ok (max_processes a).
Proof.
  intros Hget.
  destruct (get_settings_returned env script_dir a settings Hget)
    as (Hrid & Hmcp & _).
  assert (Hplain : exists rid, settings !! "region_id_field" = Some (VStr rid) /\
                               PyStr.contains "%" rid = false).
  { destruct Hrid as [[_ H] | [_ H]]; eexists; (split; [ exact H | reflexivity ]). }
  destruct Hplain as (rid & Hr & Hp).
  split; [ | split; [ | split ] ].
  - eexists. apply (kmeans_query_closed_form _ _ _ _ _ _ _ rid Hr Hp).
  - unfold equal_interval_sql_string, lookup_str. rewrite Hr.
    destruct (String.eqb map_type "values"); cbn [rbind].
    + rewrite equal_interval_values_formatted. cbn [rbind].
      mogrify_pieces. eexists. reflexivity.
    + rewrite equal_interval_percent_formatted. cbn [rbind].
      mogrify_pieces. eexists. reflexivity.
  - destruct (String.eqb_spec map_type "values") as [-> | Hne].
    + eexists. apply (equal_count_values_query _ _ _ _ _ rid Hr Hp).
    + eexists. apply (equal_count_percent_query _ _ _ _ _ _ rid Hne Hr Hp).
  - unfold lookup_int. rewrite Hmcp. reflexivity.
Qed.

Lemma get_settings_supports_the_queries_witness :
  exists settings : gmap string pyval,
    get_settings ∅ "/srv/census-loader/web" default_args = Ok (Some settings) /\
    exists q, equal_count_sql_string "census_2016_data.ste_g01"
                "census_2016_web.ste" "g3" 5 "percent" settings = Ok q.
Proof.
  destruct (get_settings_returns ∅ "/srv/census-loader/web" default_args
              (or_introl eq_refl)) as [settings Hget].
  exists settings. split; [ exact Hget | ].
  exact (proj1 (proj2 (proj2 (get_settings_supports_the_queries
                                ∅ "/srv/census-loader/web" default_args settings
                                "census_2016_data.ste_g01" "census_2016_web.ste"
                                "g3" 5 80 "percent" Hget)))).
Defined.

(** X11.  Where the connection settings come from.  A non-empty command
    line option wins; without it the environment is read, and then the
    built-in default.  The database name, like the user name, falls back on
    the environment variable [POSTGRES_USER] (and then on ["geo"]): the
    variable [PGDATABASE] is not read. *)
Theorem get_settings_connection_defaults (env : gmap string string)
    (script_dir : string) (a : args) (settings : gmap string pyval) :
  get_settings env script_dir a = Ok (Some settings) ->
  (forall h : string, pghost a = Some h -> h <> "" ->
     settings !! "pg_host" = Some (VStr h)) /\
  (pghost a = None -> forall v : string, env !! "PGHOST" = Some v ->
     settings !! "pg_host" = Some (VStr v)) /\
  (pghost a = None -> env !! "PGHOST" = None ->
     settings !! "pg_host" = Some (VStr "localhost")) /\
  (pgdb a = None -> pguser a = None ->
   forall u : string, env !! "POSTGRES_USER" = Some u ->
     settings !! "pg_db" = Some (VStr u) /\ settings !! "pg_user" = Some (VStr u)) /\
  (pgdb a = None -> env !! "POSTGRES_USER" = None ->
     settings !! "pg_db" = Some (VStr "geo")).
Proof.
  intros Hget.
  destruct (get_settings_returned env script_dir a settings Hget)
    as (_ & _ & Hhost & Hdb & Huser & _).
  rewrite Hhost, Hdb, Huser. unfold str_or, getenv.
  split; [ | split; [ | split; [ | split ] ] ].
  - intros h -> Hne. apply String.eqb_neq in Hne. rewrite Hne. reflexivity.
  - intros -> v ->. reflexivity.
  - intros -> ->. reflexivity.
  - intros -> -> u ->. split; reflexivity.
  - intros -> ->. reflexivity.
Qed.

Lemma get_settings_connection_defaults_witness :
  exists settings : gmap string pyval,
    get_settings {[ "PGDATABASE" := "census" ]} "/srv/census-loader/web"
      default_args = Ok (Some settings) /\
    settings !! "pg_db" = Some (VStr "geo").
Proof.
  destruct (get_settings_returns {[ "PGDATABASE" := "census" ]}
              "/srv/census-loader/web" default_args (or_introl eq_refl))
    as [settings Hget].
  exists settings. split; [ exact Hget | ].
  apply (proj2 (proj2 (proj2 (proj2 (get_settings_connection_defaults
                 {[ "PGDATABASE" := "census" ]} "/srv/census-loader/web"
                 default_args settings Hget))))).
  - reflexivity.
  - reflexivity.
Defined.

(** Replacing one character by another leaves no occurrence of the first. *)
Lemma replace_char_absent (c d : ascii) (s : string) :
  c <> d ->
  PyStr.contains (String c "") (PyStr.replace (String c "") (String d "") s) = false.
Proof.
  intros Hcd. unfold PyStr.replace.
  induction s as [ | a s IH ]; [ reflexivity | ].
  cbn [PyStr.replace_from String.prefix String.length Nat.sub].
  destruct (ascii_dec c a) as [-> | Hca].
  - replace (String.prefix "" s) with true by (destruct s; reflexivity).
    cbn [String.append PyStr.contains String.prefix].
    destruct (ascii_dec a d) as [E | _]; [ contradiction | ].
    rewrite IH. reflexivity.
  - cbn [PyStr.contains String.prefix].
    destruct (ascii_dec c a) as [E | _]; [ contradiction | ].
    rewrite IH. reflexivity.
Qed.

(** X12.  The two directories in the dictionary hold no backslash: every
    backslash of the path options is turned into a forward slash; a path
    option that was not given is stored as the empty string. *)
Theorem get_settings_directories_use_forward_slashes (env : gmap string string)
    (script_dir : string) (a : args) (settings : gmap string pyval) :
  get_settings env script_dir a = Ok (Some settings) ->
  exists data_dir bdys_dir : string,
    settings !! "data_directory" = Some (VStr data_dir) /\
    settings !! "boundaries_local_directory" = Some (VStr bdys_dir) /\
    PyStr.contains backslash data_dir = false /\
    PyStr.contains backslash bdys_dir = false /\
    (census_data_path a = None -> data_dir = "") /\
    (census_bdys_path a = None -> bdys_dir = "").
Proof.
  intros Hget.
  destruct (get_settings_returned env script_dir a settings Hget)
    as (_ & _ & _ & _ & _ & _ & _ & _ & _ & Hdata & Hbdys).
  eexists _, _. split; [ exact Hdata | ]. split; [ exact Hbdys | ].
  split; [ apply replace_char_absent; discriminate | ].
  split; [ apply replace_char_absent; discriminate | ].
  split; intros ->; reflexivity.
Qed.

Lemma get_settings_directories_use_forward_slashes_witness :
  exists (settings : gmap string pyval) (data_dir : string),
    get_settings ∅ "/srv/census-loader/web" default_args = Ok (Some settings) /\
    settings !! "data_directory" = Some (VStr data_dir) /\
    PyStr.contains backslash data_dir = false.
Proof.
  destruct (get_settings_returns ∅ "/srv/census-loader/web" default_args
              (or_introl eq_refl)) as [settings Hget].
  destruct (get_settings_directories_use_forward_slashes
              ∅ "/srv/census-loader/web" default_args settings Hget)
    as (data_dir & bdys_dir & Hd & _ & Hplain & _).
  exists settings, data_dir.
  split; [ exact Hget | ]. split; [ exact Hd | exact Hplain ].
Defined.

(** X13.  The schema defaults do not follow the census year option.  With
    [--census-year 2011] and no schema option, the settings are those of the
    2011 census (region identifier field [region_id]) but the three schema
    names are the 2016 ones. *)
Theorem census_year_2011_keeps_2016_schemas (env : gmap string string)
    (script_dir : string) (given : cmdline) :
  opt_census_year given = Some "2011" ->
  opt_data_schema given = None ->
  opt_boundary_schema given = None ->
  opt_web_schema given = None ->
  exists settings : gmap string pyval,
    get_settings env script_dir (set_arguments given) = Ok (Some settings) /\
    settings !! "census_year" = Some (VStr "2011") /\
    settings !! "region_id_field" = Some (VStr "region_id") /\
    settings !! "data_schema" = Some (VStr "census_2016_data") /\
    settings !! "boundary_schema" = Some (VStr "census_2016_bdys") /\
    settings !! "web_schema" = Some (VStr "census_2016_web").
Proof.
  intros Hyear Hdata Hbdys Hweb.
  assert (Hy : census_year (set_arguments given) = "2011").
  { unfold set_arguments. cbn [census_year]. rewrite Hyear. reflexivity. }
  destruct (get_settings_returns env script_dir (set_arguments given)
              (or_intror Hy)) as [settings Hget].
  exists settings. split; [ exact Hget | ].
  destruct (get_settings_returned env script_dir (set_arguments given) settings Hget)
    as (Hrid & _ & _ & _ & _ & Hd & Hb & Hw & Hcy & _).
  rewrite Hcy, Hd, Hb, Hw, Hy.
  unfold set_arguments. cbn [data_schema boundary_schema web_schema].
  rewrite Hdata, Hbdys, Hweb.
  split; [ reflexivity | ]. split; [ | repeat split ].
  destruct Hrid as [[H16 _] | [_ H11]]; [ | exact H11 ].
  rewrite Hy in H16. discriminate H16.
Qed.

Lemma census_year_2011_keeps_2016_schemas_witness :
  exists settings : gmap string pyval,
    get_settings ∅ "/srv/census-loader/web"
      (set_arguments {| opt_max_processes := None; opt_pghost := None;
                        opt_pgport := None; opt_pgdb := None; opt_pguser := None;
                        opt_pgpassword := None; opt_census_year := Some "2011";
                        opt_data_schema := None; opt_boundary_schema := None;
                        opt_web_schema := None; opt_census_data_path := None;
                        opt_census_bdys_path := None |}) = Ok (Some settings) /\
    settings !! "data_schema" = Some (VStr "census_2016_data").
Proof.
  destruct (census_year_2011_keeps_2016_schemas ∅ "/srv/census-loader/web"
              {| opt_max_processes := None; opt_pghost := None;
                 opt_pgport := None; opt_pgdb := None; opt_pguser := None;
                 opt_pgpassword := None; opt_census_year := Some "2011";
                 opt_data_schema := None; opt_boundary_schema := None;
                 opt_web_schema := None; opt_census_data_path := None;
                 opt_census_bdys_path := None |}
              eq_refl eq_refl eq_refl eq_refl)
    as (settings & Hget & _ & _ & Hd & _).
  exists settings. split; [ exact Hget | exact Hd ].
Defined.

(** ** Workers *)

Lemma sql_failed_message_ok (the_sql err : string) :
  PyStr.format "SQL FAILED! : {0} : {1}" [the_sql; err] =
  Ok ("SQL FAILED! : " ++ the_sql ++ " : " ++ err).
Proof.
  transitivity (Ok ("SQL FAILED! : " ++ the_sql ++ " : " ++ err ++ "")).
  - vm_compute. reflexivity.
  - rewrite append_empty_r. reflexivity.
Qed.

Lemma command_failed_message_ok (cmd err : string) :
  PyStr.format "COMMAND FAILED! : {0} : {1}" [cmd; err] =
  Ok ("COMMAND FAILED! : " ++ cmd ++ " : " ++ err).
Proof.
  transitivity (Ok ("COMMAND FAILED! : " ++ cmd ++ " : " ++ err ++ "")).
  - vm_compute. reflexivity.
  - rewrite append_empty_r. reflexivity.
Qed.

(** X14.  [run_sql_multiprocessing] reports a failed statement instead of
    raising it: once connected it returns ["SUCCESS"] when [execute]
    succeeds and ["SQL FAILED! : statement : error"] when it raises, and in
    both cases it closes the cursor and the connection.  A failed
    [connect] is raised, with nothing opened. *)
Theorem run_sql_reports_and_closes (w : world) (the_sql : string)
    (settings : gmap string pyval) (connect_string : string) :
  lookup_str "pg_connect_string" settings = Ok connect_string ->
  (connect w connect_string = Ok tt -> execute w the_sql = Ok tt ->
     run_sql_multiprocessing w the_sql settings [] =
     ([Connected connect_string; Executed the_sql; CursorClosed; ConnectionClosed],
      Ok "SUCCESS")) /\
  (forall ex : pyexn,
     connect w connect_string = Ok tt -> execute w the_sql = Raise ex ->
     run_sql_multiprocessing w the_sql settings [] =
     ([Connected connect_string; CursorClosed; ConnectionClosed],
      Ok ("SQL FAILED! : " ++ the_sql ++ " : " ++ exn_str ex))) /\
  (forall ex : pyexn,
     connect w connect_string = Raise ex ->
     run_sql_multiprocessing w the_sql settings [] = ([], Raise ex)).
Proof.
  intros Hcs.
  unfold run_sql_multiprocessing, open_session, do_execute, close_session, call,
    wtry, wbind, wlift, wemit, wret.
  rewrite Hcs. split; [ | split ].
  - intros Hc He. rewrite Hc, He. reflexivity.
  - intros ex Hc He. rewrite Hc, He. cbv beta iota.
    rewrite sql_failed_message_ok. reflexivity.
  - intros ex Hc. rewrite Hc. reflexivity.
Qed.

(** X15.  [run_command_line] never raises and does not look at the exit
    status: whatever status the command ends with, the result is
    ["SUCCESS"]; only a raise (the command could not be started) gives
    ["COMMAND FAILED! : command : error"]. *)
Theorem run_command_line_ignores_exit_status (w : world) (cmd : string) :
  (forall status : Z,
     subprocess_call w cmd = Ok status ->
     run_command_line w cmd [] = ([Ran cmd], Ok "SUCCESS")) /\
  (forall ex : pyexn,
     subprocess_call w cmd = Raise ex ->
     run_command_line w cmd [] =
     ([], Ok ("COMMAND FAILED! : " ++ cmd ++ " : " ++ exn_str ex))).
Proof.
  unfold run_command_line, call, wtry, wbind, wlift, wemit, wret.
  split.
  - intros status H. rewrite H. reflexivity.
  - intros ex H. rewrite H. cbv beta iota.
    rewrite command_failed_message_ok. reflexivity.
Qed.

Lemma run_sql_reports_and_closes_witness :
  run_sql_multiprocessing sample_world "SELECT 1/0" sample_settings [] =
  ([Connected "dbname='geo'"; CursorClosed; ConnectionClosed],
   Ok "SQL FAILED! : SELECT 1/0 : division by zero").
Proof.
  apply (proj1 (proj2 (run_sql_reports_and_closes sample_world "SELECT 1/0"
                         sample_settings "dbname='geo'" eq_refl))
           (DatabaseError "division by zero")).
  - reflexivity.
  - reflexivity.
Defined.

Lemma run_command_line_ignores_exit_status_witness :
  run_command_line sample_world "psql -f missing.sql" [] =
  ([Ran "psql -f missing.sql"], Ok "SUCCESS").
Proof.
  apply (proj1 (run_command_line_ignores_exit_status sample_world
                  "psql -f missing.sql") 1).
  reflexivity.
Defined.

(** ** Dispatchers *)

Lemma report_loop_log (result_list : list (option string)) (o : list out) :
  report_loop result_list o =
  ((o ++ map (fun result => LogInfo (result_text result))
          (List.filter not_success result_list))%list, Ok tt).
Proof.
  revert o. induction result_list as [ | r rs IH ]; intros o.
  - simpl. unfold ret. rewrite app_nil_r. reflexivity.
  - cbn [report_loop List.filter]. unfold mbind at 1.
    destruct (not_success r).
    + unfold emit. rewrite IH. cbn [map]. rewrite <- app_assoc. reflexivity.
    + unfold ret. rewrite IH. reflexivity.
Qed.

Lemma report_results_log (num_jobs : nat) (result_list : list (option string)) :
  run (report_results num_jobs result_list) = (reported num_jobs result_list, Ok tt).
Proof.
  unfold run, report_results, reported, mbind.
  destruct (List.length result_list <? num_jobs)%nat.
  - unfold emit. rewrite report_loop_log. reflexivity.
  - unfold ret. rewrite report_loop_log. reflexivity.
Qed.

(** X16.  What [multiprocess_list] logs once the pool has handed back its
    results: a warning exactly when there are fewer results than work
    items, then one info record for each result other than ["SUCCESS"], in
    the order of the results.  With a result for every work item and all of
    them ["SUCCESS"] it logs nothing.  A process setting below 1 raises
    before any work is started, and so does a raise of the pool. *)
Theorem multiprocess_list_report (imap_unordered : pool_map) (w : world)
    (mp_type : string) (work_list : list string) (settings : gmap string pyval) :
  (forall results : list (option string),
     make_pool settings = Ok tt ->
     (if String.eqb mp_type "sql" then
        imap_unordered string
          (fun job => worker_result (run_sql_multiprocessing w job settings) Some)
          work_list
      else
        imap_unordered string
          (fun job => worker_result (run_command_line w job) Some)
          work_list) = Ok results ->
     run (multiprocess_list imap_unordered w mp_type work_list settings) =
       (reported (List.length work_list) results, Ok tt) /\
     (List.length results = List.length work_list ->
      Forall (eq (Some "SUCCESS")) results ->
      reported (List.length work_list) results = []) /\
     (forall msg : string,
        In (LogInfo msg) (reported (List.length work_list) results) <->
        exists result, In result results /\ not_success result = true /\
                       msg = result_text result) /\
     (In missing_results_record (reported (List.length work_list) results) <->
      (List.length results < List.length work_list)%nat)) /\
  (forall n : Z,
     settings !! "max_concurrent_processes" = Some (VInt n) -> n < 1 ->
     run (multiprocess_list imap_unordered w mp_type work_list settings) =
       ([], Raise (ValueError "Number of processes must be at least 1"))).
Proof.
  split.
  - intros results Hpool Hres. split; [ | split; [ | split ] ].
    + unfold run, multiprocess_list. unfold mbind at 1. unfold lift at 1.
      rewrite Hpool. unfold mbind at 1. unfold lift at 1. rewrite Hres.
      apply report_results_log.
    + intros Hlen Hall. unfold reported. rewrite Hlen, Nat.ltb_irrefl.
      cbn [app]. clear Hres Hlen. induction Hall as [ | r rs <- _ IH ]; [ reflexivity | ].
      cbn [List.filter not_success String.eqb]. exact IH.
    + intros msg. unfold reported. rewrite in_app_iff, in_map_iff. split.
      * intros [Hin | (r & Hr & Hin)].
        -- destruct (List.length results <? List.length work_list)%nat;
             [ destruct Hin as [H | []]; discriminate H | destruct Hin ].
        -- injection Hr as <-. apply filter_In in Hin. destruct Hin as [Hin Hns].
           exists r. split; [ exact Hin | split; [ exact Hns | reflexivity ] ].
      * intros (r & Hin & Hns & ->). right. exists r.
        split; [ reflexivity | ]. apply filter_In. split; assumption.
    + unfold reported. rewrite in_app_iff.
      destruct (Nat.ltb_spec (List.length results) (List.length work_list)) as [Hlt | Hge].
      * split; [ intros _; exact Hlt | intros _; left; left; reflexivity ].
      * split; [ | lia ]. intros [[] | Hin].
        apply in_map_iff in Hin. destruct Hin as (r & Hr & _). discriminate Hr.
  - intros n Hset Hn. unfold run, multiprocess_list, make_pool.
    unfold mbind at 1. unfold lift at 1. rewrite Hset.
    apply Z.ltb_lt in Hn. rewrite Hn. reflexivity.
Qed.

Lemma multiprocess_list_report_witness :
  run (multiprocess_list serial_pool sample_world "sql"
         ["SELECT 1"; "SELECT 1/0"] sample_settings) =
  ([LogInfo "SQL FAILED! : SELECT 1/0 : division by zero"], Ok tt).
Proof.
  apply (proj1 (proj1 (multiprocess_list_report serial_pool sample_world "sql"
                         ["SELECT 1"; "SELECT 1/0"] sample_settings)
                  [Some "SUCCESS";
                   Some "SQL FAILED! : SELECT 1/0 : division by zero"]
                  ltac:(vm_compute; reflexivity) ltac:(vm_compute; reflexivity))).
Defined.

(** ** Loading Shapefiles *)




















(** ** Importing CSV files *)

Lemma replace_char_filter (c : ascii) (s : string) :
  PyStr.replace (String c "") "" s = str_filter (fun a => negb (Ascii.eqb a c)) s.
Proof.
  unfold PyStr.replace. induction s as [ | a s IH ]; [ reflexivity | ].
  cbn [PyStr.replace_from String.prefix String.length Nat.sub str_filter].
  destruct (ascii_dec c a) as [-> | Hne].
  - rewrite Ascii.eqb_refl. cbn [negb].
    destruct s; cbn [String.append]; exact IH.
  - destruct (Ascii.eqb_spec a c) as [-> | _]; [ contradiction | ].
    cbn [negb]. rewrite IH. reflexivity.
Qed.

Lemma str_filter_filter (p q : ascii -> bool) (s : string) :
  str_filter p (str_filter q s) = str_filter (fun a => q a && p a) s.
Proof.
  induction s as [ | a s IH ]; [ reflexivity | ].
  cbn [str_filter]. destruct (q a); cbn [andb str_filter].
  - destruct (p a); rewrite IH; reflexivity.
  - exact IH.
Qed.

Lemma str_filter_absent (p : ascii -> bool) (c : ascii) (s : string) :
  p c = false -> PyStr.contains (String c "") (str_filter p s) = false.
Proof.
  intros Hc. induction s as [ | a s IH ]; [ reflexivity | ].
  cbn [str_filter]. destruct (p a) eqn:Ha; [ | exact IH ].
  cbn [PyStr.contains String.prefix]. rewrite IH.
  destruct (ascii_dec c a) as [-> | _]; [ congruence | ].
  reflexivity.
Qed.

(** X19.  The cleaning of a CSV text before the import.  The cleaned text
    is the text without its leading and trailing white space, and without
    any space or [0x1A] character: the spaces inside the values are
    removed too, and no other character is touched. *)
Theorem clean_csv_removes_spaces (raw_string : string) :
  clean_csv raw_string = str_filter is_csv_char (str_rstrip (str_lstrip raw_string)) /\
  PyStr.contains " " (clean_csv raw_string) = false /\
  PyStr.contains ctrl_z (clean_csv raw_string) = false.
Proof.
  assert (E : clean_csv raw_string =
              str_filter is_csv_char (str_rstrip (str_lstrip raw_string))).
  { unfold clean_csv, ctrl_z, space.
    rewrite !replace_char_filter, str_filter_filter. reflexivity. }
  rewrite E. split; [ reflexivity | split ].
  - apply (str_filter_absent is_csv_char " "). reflexivity.
  - apply (str_filter_absent is_csv_char "026"). reflexivity.
Qed.

Lemma csv_fields_sql_ok (data_schema table : string) :
  PyStr.format ("SELECT sequential_id || ' double precision' AS field " ++
                "FROM {0}.metadata_stats " ++
                "WHERE lower(table_number) LIKE '{1}%'") [data_schema; table] =
  Ok (csv_fields_sql data_schema table).
Proof. vm_compute. reflexivity. Qed.

Lemma csv_create_table_sql_ok
    (data_schema table_name fields_string pg_user region_id_field : string) :
  PyStr.format ("DROP TABLE IF EXISTS {0}.{1} CASCADE;" ++
                "CREATE TABLE {0}.{1} ({4} text, {2}) WITH (OIDS=FALSE);" ++
                "ALTER TABLE {0}.metadata_tables OWNER TO {3}")
    [data_schema; table_name; fields_string; pg_user; region_id_field] =
  Ok (csv_create_table_sql data_schema table_name fields_string pg_user region_id_field).
Proof.
  unfold csv_create_table_sql.
  transitivity (Ok ("DROP TABLE IF EXISTS " ++ data_schema ++ "." ++ table_name ++
    " CASCADE;" ++ "CREATE TABLE " ++ data_schema ++ "." ++ table_name ++ " (" ++
    region_id_field ++ " text, " ++ fields_string ++ ") WITH (OIDS=FALSE);" ++
    "ALTER TABLE " ++ data_schema ++ ".metadata_tables OWNER TO " ++ pg_user ++ "")).
  - vm_compute. reflexivity.
  - rewrite append_empty_r. reflexivity.
Qed.

Lemma csv_copy_sql_ok (data_schema table_name : string) :
  PyStr.format "COPY {0}.{1} FROM stdin WITH CSV HEADER DELIMITER as ',' NULL as '..'"
    [data_schema; table_name] =
  Ok (csv_copy_sql data_schema table_name).
Proof. vm_compute. reflexivity. Qed.

Lemma csv_primary_key_sql_ok (data_schema table_name region_id_field : string) :
  PyStr.format ("ALTER TABLE {0}.{1} ADD CONSTRAINT {1}_pkey PRIMARY KEY ({2});" ++
                "ALTER TABLE {0}.{1} CLUSTER ON {1}_pkey")
    [data_schema; table_name; region_id_field] =
  Ok (csv_primary_key_sql data_schema table_name region_id_field).
Proof. vm_compute. reflexivity. Qed.

Lemma csv_vacuum_sql_ok (data_schema table_name : string) :
  PyStr.format "VACUUM ANALYSE {0}.{1}" [data_schema; table_name] =
  Ok (csv_vacuum_sql data_schema table_name).
Proof.
  unfold csv_vacuum_sql.
  transitivity (Ok ("VACUUM ANALYSE " ++ data_schema ++ "." ++ table_name ++ "")).
  - vm_compute. reflexivity.
  - rewrite append_empty_r. reflexivity.
Qed.

Lemma csv_failed_text_ok (path err : string) :
  PyStr.format "IMPORT CSV INTO POSTGRES FAILED! : {0} : {1}" [path; err] =
  Ok (csv_failed_text path err).
Proof.
  unfold csv_failed_text.
  transitivity (Ok ("IMPORT CSV INTO POSTGRES FAILED! : " ++ path ++ " : " ++ err ++ "")).
  - vm_compute. reflexivity.
  - rewrite append_empty_r. reflexivity.
Qed.

Lemma collect_fields_map (fields : list string) :
  collect_fields fields = map str_lower fields.
Proof.
  unfold collect_fields.
  assert (G : forall acc, fold_left (fun field_list field =>
                 (field_list ++ [str_lower field])%list) fields acc =
               (acc ++ map str_lower fields)%list).
  { induction fields as [ | f fs IH ]; intros acc.
    - cbn. rewrite app_nil_r. reflexivity.
    - cbn [fold_left map]. rewrite IH, <- app_assoc. reflexivity. }
  apply (G []).
Qed.

Ltac wstep := unfold wbind at 1; unfold wlift at 1.
Ltac wemitted := unfold wbind at 1; unfold wemit at 1; unfold wret at 1.

(** X20.  [run_csv_import_multiprocessing] with the table of the file
    created: a failure of reading the file or of the [COPY] is returned as
    a text, after the table has been dropped and created again and with
    the cursor and the connection left open; a failure of one of the
    statements before is raised.  When every step succeeds the cleaned
    text is copied, the primary key is added, the table is vacuumed, the
    session is closed and the result is ["SUCCESS"]. *)
Theorem csv_import_outcomes (w : world) (file_dict : csv_job)
    (settings : gmap string pyval)
    (connect_string data_schema pg_user region_id_field : string)
    (fields : list string) :
  let table_name := job_boundary file_dict ++ "_" ++ job_table file_dict in
  let fields_sql := csv_fields_sql data_schema (job_table file_dict) in
  let create_sql :=
    csv_create_table_sql data_schema table_name
      (str_join "," (map str_lower fields)) pg_user region_id_field in
  let copy_sql := csv_copy_sql data_schema table_name in
  lookup_str "pg_connect_string" settings = Ok connect_string ->
  lookup_str "data_schema" settings = Ok data_schema ->
  lookup_str "pg_user" settings = Ok pg_user ->
  lookup_str "region_id_field" settings = Ok region_id_field ->
  connect w connect_string = Ok tt ->
  execute w fields_sql = Ok tt ->
  fetchall w fields_sql = Ok fields ->
  (forall ex : pyexn,
     execute w create_sql = Raise ex ->
     run_csv_import_multiprocessing w file_dict settings [] =
     ([Connected connect_string; Executed fields_sql], Raise ex)) /\
  (forall ex : pyexn,
     execute w create_sql = Ok tt ->
     read_file w (job_path file_dict) = Raise ex ->
     run_csv_import_multiprocessing w file_dict settings [] =
     ([Connected connect_string; Executed fields_sql; Executed create_sql],
      Ok (csv_failed_text (job_path file_dict) (exn_str ex)))) /\
  (forall (raw_string : string) (ex : pyexn),
     execute w create_sql = Ok tt ->
     read_file w (job_path file_dict) = Ok raw_string ->
     copy_expert w copy_sql (clean_csv raw_string) = Raise ex ->
     run_csv_import_multiprocessing w file_dict settings [] =
     ([Connected connect_string; Executed fields_sql; Executed create_sql],
      Ok (csv_failed_text (job_path file_dict) (exn_str ex)))) /\
  (forall raw_string : string,
     execute w create_sql = Ok tt ->
     read_file w (job_path file_dict) = Ok raw_string ->
     copy_expert w copy_sql (clean_csv raw_string) = Ok tt ->
     execute w (csv_primary_key_sql data_schema table_name region_id_field) = Ok tt ->
     execute w (csv_vacuum_sql data_schema table_name) = Ok tt ->
     run_csv_import_multiprocessing w file_dict settings [] =
     ([Connected connect_string; Executed fields_sql; Executed create_sql;
       Copied copy_sql (clean_csv raw_string);
       Executed (csv_primary_key_sql data_schema table_name region_id_field);
       Executed (csv_vacuum_sql data_schema table_name);
       CursorClosed; ConnectionClosed],
      Ok "SUCCESS")).
Proof.
  intros table_name fields_sql create_sql copy_sql
         Hcs Hds Hu Hr Hconnect Hfields Hfetch.
  assert (Hcreated :
    run_csv_import_multiprocessing w file_dict settings [] =
    match execute w create_sql with
    | Raise ex => ([Connected connect_string; Executed fields_sql], Raise ex)
    | Ok _ =>
        let t := [Connected connect_string; Executed fields_sql; Executed create_sql] in
        match read_file w (job_path file_dict) with
        | Raise ex => (t, Ok (csv_failed_text (job_path file_dict) (exn_str ex)))
        | Ok raw_string =>
            match copy_expert w copy_sql (clean_csv raw_string) with
            | Raise ex => (t, Ok (csv_failed_text (job_path file_dict) (exn_str ex)))
            | Ok _ =>
                let t := (t ++ [Copied copy_sql (clean_csv raw_string)])%list in
                match execute w (csv_primary_key_sql data_schema table_name
                                   region_id_field) with
                | Raise ex => (t, Raise ex)
                | Ok _ =>
                    let t := (t ++ [Executed (csv_primary_key_sql data_schema table_name
                                                region_id_field)])%list in
                    match execute w (csv_vacuum_sql data_schema table_name) with
                    | Raise ex => (t, Raise ex)
                    | Ok _ =>
                        ((t ++ [Executed (csv_vacuum_sql data_schema table_name);
                                CursorClosed; ConnectionClosed])%list, Ok "SUCCESS")
                    end
                end
            end
        end
    end).
  { unfold run_csv_import_multiprocessing, open_session.
    wstep. wstep. rewrite Hcs. unfold call at 1. wstep. wstep. rewrite Hconnect.
    wemitted.
    wstep. rewrite Hds. wstep. rewrite csv_fields_sql_ok.
    unfold wbind at 1. unfold do_execute at 1. unfold call at 1. wstep. wstep.
    fold fields_sql. rewrite Hfields.
    wemitted.
    wstep. rewrite Hfetch. rewrite collect_fields_map.
    wstep. wstep. rewrite Hu. wstep. rewrite Hr.
    wstep. rewrite csv_create_table_sql_ok. fold table_name. fold create_sql.
    unfold wbind at 1. unfold do_execute at 1. unfold call at 1. wstep. wstep.
    destruct (execute w create_sql) as [[] | ex]; [ | reflexivity ].
    wemitted. cbn [app].
    unfold wbind at 1. unfold wtry at 1. wstep.
    destruct (read_file w (job_path file_dict)) as [raw_string | ex].
    - wstep. wstep. rewrite csv_copy_sql_ok. fold copy_sql.
      unfold wbind at 1. unfold call at 1. wstep. wstep.
      destruct (copy_expert w copy_sql (clean_csv raw_string)) as [[] | ex].
      + wemitted. unfold wret at 1.
        rewrite csv_primary_key_sql_ok.
        unfold wbind at 1. unfold do_execute at 1. unfold call at 1. wstep. wstep.
        destruct (execute w (csv_primary_key_sql data_schema table_name region_id_field))
          as [[] | ex]; [ | reflexivity ].
        wemitted. repeat wstep. rewrite csv_vacuum_sql_ok.
        unfold do_execute, close_session, call, wbind, wlift, wemit, wret.
        destruct (execute w (csv_vacuum_sql data_schema table_name))
          as [[] | ex]; [ | reflexivity ].
        cbv beta iota zeta. rewrite <- !app_assoc. reflexivity.
      + wstep. rewrite csv_failed_text_ok. reflexivity.
    - wstep. rewrite csv_failed_text_ok. reflexivity. }
  rewrite Hcreated. clear Hcreated.
  split; [ | split; [ | split ] ].
  - intros ex Hcreate. rewrite Hcreate. reflexivity.
  - intros ex Hcreate Hread. rewrite Hcreate, Hread. reflexivity.
  - intros raw_string ex Hcreate Hread Hcopy. rewrite Hcreate, Hread, Hcopy. reflexivity.
  - intros raw_string Hcreate Hread Hcopy Hpk Hvac.
    rewrite Hcreate, Hread, Hcopy, Hpk, Hvac. reflexivity.
Qed.

Lemma csv_import_outcomes_witness :
  run_csv_import_multiprocessing sample_world sample_csv sample_settings [] =
  ([Connected "dbname='geo'";
    Executed (csv_fields_sql "census_2016_data" "g01");
    Executed (csv_create_table_sql "census_2016_data" "sa1_g01"
                "b1 double precision,b2 double precision" "postgres" "aus_code_2016")],
   Ok "IMPORT CSV INTO POSTGRES FAILED! : /data/2016Census_G01_AUS_SA1.csv : No such file or directory").
Proof.
  apply (proj1 (proj2 (csv_import_outcomes sample_world sample_csv sample_settings
                         "dbname='geo'" "census_2016_data" "postgres" "aus_code_2016"
                         ["B1 double precision"; "B2 double precision"]
                         eq_refl eq_refl eq_refl eq_refl eq_refl eq_refl eq_refl))
           (ValueError "No such file or directory")).
  - reflexivity.
  - reflexivity.
Defined.

(** ** The versions of the database *)

Lemma version_record_ok (pg_version postgis_version geos_version : string) :
  PyStr.format (tab ++ "- using Postgres {0} and PostGIS {1} (with GEOS {2})")
    [pg_version; postgis_version; geos_version] =
  Ok (tab ++ "- using Postgres " ++ pg_version ++ " and PostGIS " ++
      postgis_version ++ " (with GEOS " ++ geos_version ++ ")").
Proof. vm_compute. reflexivity. Qed.

(** The parts that are neither a PostGIS nor a GEOS token change nothing. *)
Lemma version_loop_filter (py_float : string -> result float) (lib_strings : list string)
    (pv : string) (pn : float) (gv : string) (gn : float) :
  version_loop py_float lib_strings pv pn gv gn =
  version_loop py_float
    (List.filter (fun tok => is_postgis_token tok || is_geos_token tok) lib_strings)
    pv pn gv gn.
Proof.
  revert pv pn gv gn.
  induction lib_strings as [ | tok rest IH ]; intros pv pn gv gn; [ reflexivity | ].
  cbn [List.filter]. unfold is_postgis_token at 1, is_geos_token at 1.
  cbn [version_loop].
  destruct (String.eqb (PyStr.take 8 tok) "POSTGIS=") eqn:Ep;
    destruct (String.eqb (PyStr.take 5 tok) "GEOS=") eqn:Eg;
    cbn [orb version_loop]; rewrite ?Ep, ?Eg.
  - destruct (py_float (PyStr.take 3 (PyStr.replace "POSTGIS=" "" tok))); cbn [rbind];
      [ | reflexivity ].
    destruct (py_float (PyStr.take 3 (PyStr.replace "GEOS=" "" tok))); cbn [rbind];
      [ | reflexivity ].
    apply IH.
  - destruct (py_float (PyStr.take 3 (PyStr.replace "POSTGIS=" "" tok))); cbn [rbind];
      [ | reflexivity ].
    apply IH.
  - cbn [rbind].
    destruct (py_float (PyStr.take 3 (PyStr.replace "GEOS=" "" tok))); cbn [rbind];
      [ | reflexivity ].
    apply IH.
  - cbn [rbind fst snd]. apply IH.
Qed.

Lemma version_loop_keeps_postgis (py_float : string -> result float)
    (lib_strings : list string) (pv : string) (pn : float) (gv : string) (gn : float)
    (pv' : string) (pn' : float) (g' : string * float) :
  existsb is_postgis_token lib_strings = false ->
  version_loop py_float lib_strings pv pn gv gn = Ok (pv', pn', g') ->
  pv' = pv /\ pn' = pn.
Proof.
  revert gv gn.
  induction lib_strings as [ | tok rest IH ]; intros gv gn Hno Hrun.
  - cbn in Hrun. injection Hrun as <- <- _. split; reflexivity.
  - cbn [existsb] in Hno. apply orb_false_iff in Hno. destruct Hno as [Htok Hrest].
    unfold is_postgis_token in Htok.
    cbn [version_loop] in Hrun. rewrite Htok in Hrun. cbn [rbind fst snd] in Hrun.
    destruct (String.eqb (PyStr.take 5 tok) "GEOS=").
    + destruct (py_float (PyStr.take 3 (PyStr.replace "GEOS=" "" tok)));
        cbn [rbind fst snd] in Hrun; [ | discriminate Hrun ].
      exact (IH _ _ Hrest Hrun).
    + cbn [rbind fst snd] in Hrun. exact (IH _ _ Hrest Hrun).
Qed.

Lemma version_loop_keeps_geos (py_float : string -> result float)
    (lib_strings : list string) (pv : string) (pn : float) (gv : string) (gn : float)
    (p' : string * float) (gv' : string) (gn' : float) :
  existsb is_geos_token lib_strings = false ->
  version_loop py_float lib_strings pv pn gv gn = Ok (p', (gv', gn')) ->
  gv' = gv /\ gn' = gn.
Proof.
  revert pv pn.
  induction lib_strings as [ | tok rest IH ]; intros pv pn Hno Hrun.
  - cbn in Hrun. injection Hrun as _ <- <-. split; reflexivity.
  - cbn [existsb] in Hno. apply orb_false_iff in Hno. destruct Hno as [Htok Hrest].
    unfold is_geos_token in Htok.
    cbn [version_loop] in Hrun. rewrite Htok in Hrun.
    destruct (String.eqb (PyStr.take 8 tok) "POSTGIS=").
    + destruct (py_float (PyStr.take 3 (PyStr.replace "POSTGIS=" "" tok)));
        cbn [rbind fst snd] in Hrun; [ | discriminate Hrun ].
      exact (IH _ _ Hrest Hrun).
    + cbn [rbind fst snd] in Hrun. exact (IH _ _ Hrest Hrun).
Qed.

(** The run of [check_postgis_version], by the result of its loop. *)
Lemma check_postgis_version_run (py_float : string -> result float)
    (pg_cur : string -> result string) (v f : string) :
  pg_cur "SELECT version()" = Ok v ->
  pg_cur "SELECT PostGIS_full_version()" = Ok f ->
  run (check_postgis_version py_float pg_cur) =
  match version_loop py_float (lib_strings_of f) "UNKNOWN" 0%float "UNKNOWN" 0%float with
  | Ok (pv, pn, (gv, gn)) =>
      ([version_record (pg_version_of v) pv gv],
       Ok ((2.2 <=? pn)%float && (3.5 <=? gn)%float))
  | Raise ex => ([], Raise ex)
  end.
Proof.
  intros Hv Hf. unfold run, check_postgis_version.
  unfold mbind at 1. unfold lift at 1. rewrite Hv.
  unfold mbind at 1. unfold lift at 1. rewrite Hf.
  unfold mbind at 1. unfold lift at 1. fold (lib_strings_of f).
  destruct (version_loop py_float (lib_strings_of f) "UNKNOWN" 0 "UNKNOWN" 0)
    as [[[pv pn] [gv gn]] | ex]; [ | reflexivity ].
  unfold mbind at 1. unfold lift at 1. rewrite version_record_ok.
  unfold mbind, emit, ret, version_record. fold (pg_version_of v).
  destruct ((2.2 <=? pn)%float && (3.5 <=? gn)%float); reflexivity.
Qed.

Lemma filter_none {A : Type} (keep : A -> bool) (l : list A) :
  existsb keep l = false -> List.filter keep l = [].
Proof.
  induction l as [ | a l IH ]; [ reflexivity | ].
  cbn [existsb List.filter]. intros H. apply orb_false_iff in H.
  destruct H as [-> H]. exact (IH H).
Qed.

(** X21.  [check_postgis_version] reports the k-means clustering as
    supported only when the PostGIS answer has both a part that begins
    with [POSTGIS=] and a part that begins with [GEOS=].  With neither
    part the result is [False] and both versions are logged as
    [UNKNOWN], whatever [float] does. *)
Theorem postgis_flag_needs_both_versions (py_float : string -> result float)
    (pg_cur : string -> result string) (v f : string) :
  pg_cur "SELECT version()" = Ok v ->
  pg_cur "SELECT PostGIS_full_version()" = Ok f ->
  (existsb (fun tok => is_postgis_token tok || is_geos_token tok) (lib_strings_of f)
     = false ->
   run (check_postgis_version py_float pg_cur) =
   ([version_record (pg_version_of v) "UNKNOWN" "UNKNOWN"], Ok false)) /\
  (forall o : list out,
     run (check_postgis_version py_float pg_cur) = (o, Ok true) ->
     existsb is_postgis_token (lib_strings_of f) = true /\
     existsb is_geos_token (lib_strings_of f) = true).
Proof.
  intros Hv Hf. rewrite (check_postgis_version_run py_float pg_cur v f Hv Hf).
  split.
  - intros Hnone. rewrite version_loop_filter, (filter_none _ _ Hnone). reflexivity.
  - intros o Hrun.
    destruct (version_loop py_float (lib_strings_of f) "UNKNOWN" 0 "UNKNOWN" 0)
      as [[[pv pn] [gv gn]] | ex] eqn:Hloop; [ | discriminate Hrun ].
    injection Hrun as _ Hflag. apply andb_true_iff in Hflag.
    destruct Hflag as [Hp Hg]. split.
    + destruct (existsb is_postgis_token (lib_strings_of f)) eqn:He; [ reflexivity | ].
      destruct (version_loop_keeps_postgis _ _ _ _ _ _ _ _ _ He Hloop) as [_ ->].
      vm_compute in Hp. discriminate Hp.
    + destruct (existsb is_geos_token (lib_strings_of f)) eqn:He; [ reflexivity | ].
      destruct (version_loop_keeps_geos _ _ _ _ _ _ _ _ _ He Hloop) as [_ ->].
      vm_compute in Hg. discriminate Hg.
Qed.

Lemma postgis_flag_needs_both_versions_witness :
  run (check_postgis_version sample_float
         (fun query => if String.eqb query "SELECT version()"
                       then Ok "PostgreSQL 9.6.1, compiled by Visual C++ build 1800, 64-bit"
                       else Ok "")) =
  ([version_record "9.6.1" "UNKNOWN" "UNKNOWN"], Ok false).
Proof.
  apply (proj1 (postgis_flag_needs_both_versions sample_float
                  (fun query => if String.eqb query "SELECT version()"
                       then Ok "PostgreSQL 9.6.1, compiled by Visual C++ build 1800, 64-bit"
                       else Ok "")
                  "PostgreSQL 9.6.1, compiled by Visual C++ build 1800, 64-bit" ""
                  eq_refl eq_refl)).
  reflexivity.
Defined.

Lemma replace_prefix_only (pat rest : string) :
  pat <> "" -> PyStr.contains pat rest = false ->
  PyStr.replace pat "" (pat ++ rest) = rest.
Proof.
  intros Hpat Hno.
  assert (Hp : String.prefix pat (pat ++ rest) = true).
  { clear. induction pat as [ | c pat IH ]; [ destruct rest; reflexivity | ].
    cbn [String.append String.prefix].
    destruct (ascii_dec c c) as [_ | Hn]; [ exact IH | contradiction ]. }
  assert (Hd : PyStr.drop (String.length pat) (pat ++ rest) = rest).
  { clear. induction pat as [ | c pat IH ]; [ destruct rest; reflexivity | exact IH ]. }
  rewrite (replace_first pat "" (pat ++ rest) 0 Hpat).
  - cbn [Nat.add]. rewrite Hd.
    assert (Ht : PyStr.take 0 (pat ++ rest) = "") by (destruct (pat ++ rest); reflexivity).
    rewrite Ht. cbn [String.append].
    apply replace_absent. rewrite contains_find in Hno.
    destruct (PyStr.find pat rest); [ discriminate Hno | reflexivity ].
  - destruct (pat ++ rest); cbn [PyStr.find]; rewrite Hp; reflexivity.
Qed.

(** X22.  The version numbers are read from the first three characters
    of each version text.  For an answer whose version parts are
    [POSTGIS=pv] and then [GEOS=gv], the result is decided by [float] of
    the first three characters of [pv] and of [gv]: PostGIS at least 2.2
    and GEOS at least 3.5.  So a GEOS version [3.10.2] is read as [3.1]. *)
Theorem postgis_flag_reads_three_characters (py_float : string -> result float)
    (pg_cur : string -> result string) (v f pv gv : string) (pn gn : float) :
  pg_cur "SELECT version()" = Ok v ->
  pg_cur "SELECT PostGIS_full_version()" = Ok f ->
  List.filter (fun tok => is_postgis_token tok || is_geos_token tok) (lib_strings_of f) =
    ["POSTGIS=" ++ pv; "GEOS=" ++ gv] ->
  PyStr.contains "POSTGIS=" pv = false ->
  PyStr.contains "GEOS=" gv = false ->
  py_float (PyStr.take 3 pv) = Ok pn ->
  py_float (PyStr.take 3 gv) = Ok gn ->
  run (check_postgis_version py_float pg_cur) =
  ([version_record (pg_version_of v) pv gv],
   Ok ((2.2 <=? pn)%float && (3.5 <=? gn)%float)).
Proof.
  intros Hv Hf Htoks Hpv Hgv Hpn Hgn.
  rewrite (check_postgis_version_run py_float pg_cur v f Hv Hf).
  rewrite version_loop_filter, Htoks.
  cbn [version_loop].
  change (PyStr.take 8 ("POSTGIS=" ++ pv)) with "POSTGIS=".
  change (PyStr.take 5 ("POSTGIS=" ++ pv)) with "POSTG".
  change (PyStr.take 5 ("GEOS=" ++ gv)) with "GEOS=".
  replace (String.eqb (PyStr.take 8 ("GEOS=" ++ gv)) "POSTGIS=") with false
    by (destruct gv as [ | a [ | b [ | c gv ] ] ]; reflexivity).
  change (String.eqb "POSTGIS=" "POSTGIS=") with true.
  change (String.eqb "POSTG" "GEOS=") with false.
  change (String.eqb "GEOS=" "GEOS=") with true.
  cbv beta iota.
  rewrite (replace_prefix_only "POSTGIS=" pv) by (discriminate || assumption).
  rewrite (replace_prefix_only "GEOS=" gv) by (discriminate || assumption).
  rewrite Hpn, Hgn. reflexivity.
Qed.

Lemma postgis_flag_reads_three_characters_witness :
  run (check_postgis_version sample_float sample_versions) =
  ([version_record "16.1 on x86_64-pc-linux-gnu" "3.4.0" "3.10.2-CAPI-1.16.0"],
   Ok false).
Proof.
  apply (postgis_flag_reads_three_characters sample_float sample_versions
           "PostgreSQL 16.1 on x86_64-pc-linux-gnu, compiled by gcc, 64-bit"
           ("POSTGIS=" ++ dquote ++ "3.4.0 0874ea3" ++ dquote ++
            " [EXTENSION] PGSQL=" ++ dquote ++ "160" ++ dquote ++
            " GEOS=" ++ dquote ++ "3.10.2-CAPI-1.16.0" ++ dquote ++
            " PROJ=" ++ dquote ++ "8.2.1" ++ dquote)
           "3.4.0" "3.10.2-CAPI-1.16.0" 3.4%float 3.1%float).
  - reflexivity.
  - reflexivity.
  - vm_compute. reflexivity.
  - reflexivity.
  - reflexivity.
  - reflexivity.
  - reflexivity.
Defined.
